(** * Style-variant composition and element-polymorphism resolution

  A shallow embedding of the resolution logic of the component library:
  [Button] and [buttonVariants] (src/components/ui/Button.tsx),
  [ActionButton] and [ActionButtons] (the action-button module) and the
  class resolution of [PageLayout] (src/components/Layout/PageLayout.tsx).

  The later parts cover the rest of these files: the pre-built button
  sets, [Logo] and its variants, [Header], [Footer] and what [PageLayout]
  renders around the main content.

  Values are modelled as the JavaScript runtime sees them: an optional
  property is an [option] ([None] is [undefined]), [a || b] and [a ? b : c]
  test truthiness, and a property read on [undefined] throws a
  [TypeError]. *)

From Stdlib Require Import ZArith Ascii String.
From stdpp Require Import base option list strings gmap.

Local Open Scope string_scope.

(** ** JavaScript values *)

Module Js.

(** The only exception the modelled code can raise. *)
Inductive JsError : Type :=
| TypeError (msg : string).

Inductive result (A : Type) : Type :=
| Ok (a : A)
| Throw (e : JsError).
Arguments Ok {A} a.
Arguments Throw {A} e.

Definition is_ok {A} (r : result A) : bool :=
  match r with Ok _ => true | Throw _ => false end.

Definition bind {A B} (r : result A) (k : A -> result B) : result B :=
  match r with Ok a => k a | Throw e => Throw e end.

(** Truthiness of a string: every string but the empty one. *)
Definition truthy_str (s : string) : bool :=
  match s with EmptyString => false | String _ _ => true end.

(** Truthiness of an optional string: [undefined] and [""] are falsy. *)
Definition truthy (v : option string) : bool :=
  match v with Some s => truthy_str s | None => false end.

(** Truthiness of an optional boolean. *)
Definition truthy_bool (v : option bool) : bool :=
  match v with Some b => b | None => false end.

(** [a || b] on optional strings. *)
Definition or_str (a b : option string) : option string :=
  if truthy a then a else b.

(** [n || d] on an optional number and a number literal; the icon sizes
    it is used on are whole numbers. *)
Definition or_num (a : option Z) (d : Z) : Z :=
  match a with
  | Some n => if Z.eqb n 0 then d else n
  | None => d
  end.

(** [s.startsWith(p)], for the ASCII patterns the source uses. *)
Definition startsWith (s p : string) : bool := String.prefix p s.

(** Property names every object literal inherits from [Object.prototype]. *)
Definition objectPrototypeKeys : list string :=
  [ "constructor"; "__defineGetter__"; "__defineSetter__"; "hasOwnProperty";
    "__lookupGetter__"; "__lookupSetter__"; "isPrototypeOf";
    "propertyIsEnumerable"; "toString"; "valueOf"; "__proto__";
    "toLocaleString" ].

(** The outcome of [table[key]] on an object literal: an own property, a
    member inherited from [Object.prototype] (a function or the prototype
    object, never a string), or [undefined]. *)
Inductive lookup_result (A : Type) : Type :=
| Own (a : A)
| Inherited
| Undefined.
Arguments Own {A} a.
Arguments Inherited {A}.
Arguments Undefined {A}.

Definition get {A} (table : gmap string A) (key : string) : lookup_result A :=
  match table !! key with
  | Some a => Own a
  | None =>
      if bool_decide (key ∈ objectPrototypeKeys) then Inherited else Undefined
  end.

(** A key is unknown to a table when reading it yields [undefined]. *)
Definition unknown_key {A} (table : gmap string A) (key : string) : Prop :=
  get table key = Undefined.

End Js.
Import Js.

(** ** Class composition: [clsx] and [cn] *)

Module Classes.

(** The arguments the modelled code hands to [cn] and [cx]. [CVOpaque]
    stands for a truthy value that names no class (a function or
    prototype object reached through an inherited key). *)
#[warnings="-register-all"]
Inductive ClassValue : Type :=
| CVUndefined
| CVNull
| CVString (s : string)
| CVDict (entries : list (string * bool))
| CVArray (items : list ClassValue)
| CVOpaque.

Definition of_option (v : option string) : ClassValue :=
  match v with Some s => CVString s | None => CVUndefined end.

Definition of_lookup (v : lookup_result string) : ClassValue :=
  match v with
  | Own s => CVString s
  | Inherited => CVOpaque
  | Undefined => CVUndefined
  end.

Definition truthy_cv (v : ClassValue) : bool :=
  match v with
  | CVUndefined | CVNull => false
  | CVString s => truthy_str s
  | CVDict _ | CVArray _ | CVOpaque => true
  end.

(** [str && (str += ' '); str += x]. *)
Definition push (str x : string) : string :=
  if truthy_str str then str +:+ " " +:+ x else x.

(** [toVal] of clsx. *)
Fixpoint toVal (mix : ClassValue) : string :=
  match mix with
  | CVString s => s
  | CVDict entries =>
      fold_left (fun str (kv : string * bool) => if snd kv then push str (fst kv) else str)
                entries ""
  | CVArray items =>
      fold_left (fun str item =>
                   if truthy_cv item
                   then let y := toVal item in
                        if truthy_str y then push str y else str
                   else str)
                items ""
  | CVUndefined | CVNull | CVOpaque => ""
  end.

(** [clsx(...args)]. *)
Definition clsx (args : list ClassValue) : string :=
  fold_left (fun str tmp =>
               if truthy_cv tmp
               then let x := toVal tmp in
                    if truthy_str x then push str x else str
               else str)
            args "".

(** Splitting a class string into its space-separated tokens. *)
Fixpoint tokens_aux (cur : string) (s : string) : list string :=
  match s with
  | EmptyString => if truthy_str cur then [cur] else []
  | String c rest =>
      if Ascii.eqb c " "%char
      then (if truthy_str cur then [cur] else []) ++ tokens_aux "" rest
      else tokens_aux (cur +:+ String c EmptyString) rest
  end.

Definition tokens (s : string) : list string := tokens_aux "" s.

(** Keep, of every token, its last occurrence only. *)
Fixpoint dedupe_last (l : list string) : list string :=
  match l with
  | [] => []
  | x :: rest =>
      if bool_decide (x ∈ rest) then dedupe_last rest
      else x :: dedupe_last rest
  end.

(** Modelled from the spec: [cn] of [@/lib/utils], which is not among the
    sources. Section 4.2 has the composer drop empty and undefined
    fragments, join the rest with single spaces in argument order and
    keep only the last occurrence of a repeated class token. *)
Definition cn (args : list ClassValue) : string :=
  String.concat " " (dedupe_last (tokens (clsx args))).

End Classes.
Import Classes.

(** ** Link semantics of [ActionButton] *)

Module Link.

(** [external || href.startsWith('http') || href.startsWith('//')], with
    the destructuring default [external = false]. *)
Definition isExternal (external : option bool) (href : string) : bool :=
  default false external || startsWith href "http" || startsWith href "//".

(** [(isExternal ? v : undefined)]. *)
Definition when_external (ext : bool) (v : string) : option string :=
  if ext then Some v else None.

(** [target || (isExternal ? '_blank' : undefined)]. *)
Definition finalTarget (target : option string) (ext : bool) : option string :=
  or_str target (when_external ext "_blank").

(** [rel || (isExternal ? 'noopener noreferrer' : undefined)]. *)
Definition finalRel (rel : option string) (ext : bool) : option string :=
  or_str rel (when_external ext "noopener noreferrer").

Record resolved : Type := Resolved {
  r_isExternal : bool;
  r_target : option string;
  r_rel : option string
}.

(** The three derived values of lines 134-138 together. *)
Definition resolve (href : string) (external : option bool)
    (target rel : option string) : resolved :=
  let ext := isExternal external href in
  {| r_isExternal := ext;
     r_target := finalTarget target ext;
     r_rel := finalRel rel ext |}.

End Link.

(** ** [cva] and [buttonVariants] (Button.tsx, lines 6-35) *)

(** [cva] is imported from the npm package class-variance-authority and
    [cx] is its re-export of [clsx]; both follow the packages' resolution
    rules. For every declared dimension, in declaration order, the prop is
    read, the declared default stands in for a falsy prop, and the key is
    looked up in the dimension's table; a [null] prop yields [null]. *)
Module Cva.

(** A variant prop as [VariantProps] types it: a string, [null] or
    [undefined]. *)
Inductive PropValue : Type :=
| PUndefined
| PNull
| PString (s : string).

Record config : Type := Config {
  base : string;
  (** in declaration order, the order of [Object.keys(variants)] *)
  variants : list (string * gmap string string);
  defaultVariants : gmap string string
}.

Record props : Type := Props {
  dims : gmap string PropValue;
  className : option string
}.

(** [props[name]]: a property that was never set reads as [undefined]. *)
Definition prop (p : props) (name : string) : PropValue :=
  default PUndefined (dims p !! name).

(** [falsyToString(variantProp) || falsyToString(defaultVariantProp)];
    [falsyToString] is the identity on strings and on [undefined]. *)
Definition variantKey (variantProp : PropValue) (defaultVariantProp : option string)
  : option string :=
  match variantProp with
  | PString s => or_str (Some s) defaultVariantProp
  | PUndefined | PNull => defaultVariantProp
  end.

(** The property name an optional key is coerced to in [table[key]]. *)
Definition key_name (k : option string) : string :=
  match k with Some s => s | None => "undefined" end.

(** One entry of [getVariantClassNames]: [null] for a [null] prop, else
    [variants[variant][variantKey]]. *)
Definition variantClassName (cfg : config) (p : props)
    (dim : string * gmap string string) : ClassValue :=
  match prop p (fst dim) with
  | PNull => CVNull
  | v => of_lookup (get (snd dim) (key_name (variantKey v (defaultVariants cfg !! fst dim))))
  end.

Definition getVariantClassNames (cfg : config) (p : props) : list ClassValue :=
  map (variantClassName cfg p) (variants cfg).

(** [cva(base, config)(props)] for a configuration without compound
    variants: [cx(base, getVariantClassNames, undefined, props.class,
    props.className)], where [cx] is [clsx]. *)
Definition cva (cfg : config) (p : props) : string :=
  clsx [ CVString (base cfg);
         CVArray (getVariantClassNames cfg p);
         CVUndefined;
         CVUndefined;
         of_option (className p) ].

End Cva.

Module ButtonStyles.
Import Cva.

Definition variantTable : gmap string string :=
  {[ "primary" := "bg-foreground text-background border-transparent hover:bg-[#383838] dark:hover:bg-[#ccc]";
     "secondary" := "border-black/[.08] dark:border-white/[.145] hover:bg-[#f2f2f2] dark:hover:bg-[#1a1a1a] hover:border-transparent";
     "ghost" := "border-transparent hover:bg-accent hover:text-accent-foreground";
     "link" := "border-transparent underline-offset-4 hover:underline text-primary" ]}.

Definition sizeTable : gmap string string :=
  {[ "sm" := "h-9 px-3 text-sm";
     "default" := "h-10 px-4 text-sm sm:h-12 sm:px-5 sm:text-base";
     "lg" := "h-11 px-8 text-base";
     "icon" := "h-10 w-10" ]}.

Definition widthTable : gmap string string :=
  {[ "auto" := "w-auto";
     "full" := "w-full";
     "fixed" := "w-full sm:w-auto md:w-[158px]" ]}.

Definition buttonConfig : config :=
  {| base := "inline-flex items-center justify-center gap-2 rounded-full border border-solid transition-colors font-medium focus-visible:outline-none focus-visible:ring-2 focus-visible:ring-ring focus-visible:ring-offset-2 disabled:pointer-events-none disabled:opacity-50";
     variants := [ ("variant", variantTable); ("size", sizeTable); ("width", widthTable) ];
     defaultVariants := {[ "variant" := "primary"; "size" := "default"; "width" := "auto" ]} |}.

(** [buttonVariants({ variant, size, width, className })]. *)
Definition buttonVariants (variant size width : PropValue) (className : option string)
  : string :=
  cva buttonConfig
      {| dims := {[ "variant" := variant; "size" := size; "width" := width ]};
         className := className |}.

End ButtonStyles.

(** ** What a component renders *)

Module React.

(** An event handler or a forwarded ref: an opaque handle, never
    inspected. *)
Inductive Handle : Type :=
| HandleId (n : nat).

(** The children and elements the modelled components build. *)
#[warnings="-register-all"]
Inductive ReactNode : Type :=
| RUndefined
| RFalse
| RText (s : string)
| RSpinner
| RImage (src alt : option string) (width height : Z) (className : string)
| RSpan (child : ReactNode)
| RFragment (children : list ReactNode).

Definition truthy_node (n : ReactNode) : bool :=
  match n with
  | RUndefined | RFalse => false
  | RText s => truthy_str s
  | _ => true
  end.

(** [c && n] for a boolean [c]. *)
Definition and_node (c : bool) (n : ReactNode) : ReactNode :=
  if c then n else RFalse.

(** The nodes React puts on screen: fragments are flattened, and
    [false], [undefined] and the empty string render nothing. *)
Fixpoint visible (n : ReactNode) : list ReactNode :=
  match n with
  | RUndefined | RFalse => []
  | RText s => if truthy_str s then [n] else []
  | RFragment children => concat (map visible children)
  | _ => [n]
  end.

(** The element a [Button] returns: [<a>] or [<button>] with the
    attributes the source sets on each. *)
Inductive Element : Type :=
| ElA (href : string) (target rel : option string) (className : string)
      (onClick : option Handle) (content : ReactNode)
| ElButton (className : string) (ref : option Handle) (disabled : bool)
           (onClick : option Handle) (content : ReactNode).

Inductive ElementKind : Type :=
| Navigable
| Actionable.

Definition kind_of (e : Element) : ElementKind :=
  match e with ElA _ _ _ _ _ _ => Navigable | ElButton _ _ _ _ _ => Actionable end.

Definition content_of (e : Element) : ReactNode :=
  match e with ElA _ _ _ _ _ c => c | ElButton _ _ _ _ c => c end.

(** Whether the rendered element carries a set [disabled] attribute. An
    anchor has none. *)
Definition disabled_of (e : Element) : bool :=
  match e with ElA _ _ _ _ _ _ => false | ElButton _ _ d _ _ => d end.

End React.

(** ** [Button] (Button.tsx, lines 50-126) *)

Module Btn.
Import Cva React.

Record ButtonProps : Type := {
  className : option string;
  variant : PropValue;
  size : PropValue;
  width : PropValue;
  href : option string;
  target : option string;
  rel : option string;
  icon : ReactNode;
  iconPosition : option string;
  loading : option bool;
  loadingText : option string;
  children : ReactNode;
  disabled : option bool;
  onClick : option Handle;
  ref : option Handle
}.

Inductive Tag : Type :=
| TagA
| TagButton.

(** Line 68: [href ? 'a' : 'button']. *)
Definition Comp (href : option string) : Tag :=
  if truthy href then TagA else TagButton.

(** Line 69: [disabled || loading], with the default [loading = false]. *)
Definition isDisabled (disabled loading : option bool) : bool :=
  truthy_bool disabled || default false loading.

(** [!loading && icon && iconPosition === side && icon]. *)
Definition iconSlot (loading : bool) (icon : ReactNode) (iconPosition side : string)
  : ReactNode :=
  if loading then RFalse
  else if truthy_node icon
       then and_node (bool_decide (iconPosition = side)) icon
       else icon.

(** Lines 71-99. *)
Definition content (p : ButtonProps) : ReactNode :=
  let loading := default false (loading p) in
  let iconPosition := default "left" (iconPosition p) in
  RFragment
    [ and_node loading RSpinner;
      iconSlot loading (icon p) iconPosition "left";
      RSpan (match loadingText p with
             | Some t => if loading && truthy_str t then RText t else children p
             | None => children p
             end);
      iconSlot loading (icon p) iconPosition "right" ].

Definition classes (p : ButtonProps) : string :=
  cn [ CVString (ButtonStyles.buttonVariants (variant p) (size p) (width p)
                                             (className p)) ].

(** Lines 101-124. *)
Definition Button (p : ButtonProps) : Element :=
  match href p with
  | Some h =>
      if truthy_str h
      then ElA h (target p) (rel p) (classes p) (onClick p) (content p)
      else ElButton (classes p) (ref p) (isDisabled (disabled p) (loading p))
                    (onClick p) (content p)
  | None =>
      ElButton (classes p) (ref p) (isDisabled (disabled p) (loading p))
               (onClick p) (content p)
  end.

End Btn.

(** ** [ActionButton] and [ActionButtons] *)

Module Action.
Import Cva React Link.

Record IconConfig : Type := {
  icon_src : option string;
  icon_alt : option string;
  icon_width : option Z;
  icon_height : option Z;
  icon_position : option string;
  icon_className : option string
}.

Record ActionButtonConfig : Type := {
  label : string;
  href : option string;
  variant : option string;
  size : option string;
  width : option string;
  icon : option IconConfig;
  external : option bool;
  target : option string;
  rel : option string;
  className : option string;
  loading : option bool;
  disabled : option bool;
  onClick : option Handle
}.

(** The [<Image>] of lines 143-149 and 153-159. *)
Definition iconImage (i : IconConfig) : ReactNode :=
  RImage (icon_src i) (icon_alt i)
         (or_num (icon_width i) 20) (or_num (icon_height i) 20)
         (cn [ CVString "flex-shrink-0"; of_option (icon_className i) ]).

(** [icon && icon.position !== 'right' && <Image/>]. *)
Definition leftIcon (icon : option IconConfig) : ReactNode :=
  match icon with
  | None => RUndefined
  | Some i => and_node (negb (bool_decide (icon_position i = Some "right")))
                       (iconImage i)
  end.

(** [icon && icon.position === 'right' && <Image/>]. *)
Definition rightIcon (icon : option IconConfig) : ReactNode :=
  match icon with
  | None => RUndefined
  | Some i => and_node (bool_decide (icon_position i = Some "right"))
                       (iconImage i)
  end.

(** Lines 140-162. *)
Definition buttonContent (c : ActionButtonConfig) : ReactNode :=
  RFragment [ leftIcon (icon c); RSpan (RText (label c)); rightIcon (icon c) ].

(** The props of the [<Button>] of lines 164-181, for a defined [href]. *)
Definition buttonProps (c : ActionButtonConfig) (h : string) (ref : option Handle)
  : Btn.ButtonProps :=
  let isExternal := isExternal (external c) h in
  {| Btn.className := className c;
     Btn.variant := PString (default "primary" (variant c));
     Btn.size := PString (default "default" (size c));
     Btn.width := PString (default "auto" (width c));
     Btn.href := Some h;
     Btn.target := finalTarget (target c) isExternal;
     Btn.rel := finalRel (rel c) isExternal;
     Btn.icon := RUndefined;
     Btn.iconPosition := None;
     Btn.loading := Some (default false (loading c));
     Btn.loadingText := None;
     Btn.children := buttonContent c;
     Btn.disabled := Some (default false (disabled c));
     Btn.onClick := onClick c;
     Btn.ref := ref |}.

(** Lines 116-183. [href.startsWith] on an [undefined] href throws. *)
Definition ActionButton (c : ActionButtonConfig) (ref : option Handle)
  : result Element :=
  match href c with
  | None =>
      Throw (TypeError "Cannot read properties of undefined (reading 'startsWith')")
  | Some h => Ok (Btn.Button (buttonProps c h ref))
  end.

Record Responsive : Type := {
  mobile : option string;
  tablet : option string
}.

Record ActionButtonsProps : Type := {
  buttons : list ActionButtonConfig;
  direction : option string;
  align : option string;
  gap : option string;
  container_width : option string;
  container_className : option string;
  responsive : option Responsive
}.

Definition gapClasses : gmap string string :=
  {[ "sm" := "gap-2"; "md" := "gap-4"; "lg" := "gap-6" ]}.

Definition alignClasses : gmap string string :=
  {[ "start" := "justify-start items-start";
     "center" := "justify-center items-center";
     "end" := "justify-end items-end";
     "stretch" := "justify-stretch items-stretch" ]}.

Definition stackFragment : string := "flex-col sm:flex-row".
Definition wrapFragment : string := "flex-row flex-wrap".
Definition scrollFragment : string := "flex-row overflow-x-auto".

(** The object literal of lines 90-99, after the defaults are applied. *)
Definition containerRules (direction width : string) (mobile : option string)
  : list (string * bool) :=
  [ ("flex-col", bool_decide (direction = "vertical"));
    ("flex-row", bool_decide (direction = "horizontal"));
    ("w-full", bool_decide (width = "full"));
    ("w-auto", bool_decide (width = "auto"));
    (stackFragment,
      bool_decide (mobile = Some "stack") && bool_decide (direction = "horizontal"));
    (wrapFragment, bool_decide (mobile = Some "wrap"));
    (scrollFragment, bool_decide (mobile = Some "scroll")) ].

(** The fragments a rule object contributes: the keys whose value is
    true, in declaration order. *)
Definition contributed (rules : list (string * bool)) : list string :=
  map fst (filter (fun kv => snd kv = true) rules).

Definition defaultResponsive : Responsive :=
  {| mobile := Some "stack"; tablet := Some "row" |}.

(** Lines 86-101. *)
Definition containerClasses (p : ActionButtonsProps) : string :=
  let direction := default "horizontal" (direction p) in
  let align := default "center" (align p) in
  let gap := default "md" (gap p) in
  let width := default "auto" (container_width p) in
  let responsive := default defaultResponsive (responsive p) in
  cn [ CVString "flex";
       of_lookup (get gapClasses gap);
       of_lookup (get alignClasses align);
       CVDict (containerRules direction width (mobile responsive));
       of_option (container_className p) ].

(** [buttons.map(...)]: the first button that throws aborts the render. *)
Fixpoint renderButtons (l : list ActionButtonConfig) : result (list Element) :=
  match l with
  | [] => Ok []
  | c :: rest =>
      bind (ActionButton c None) (fun e =>
      bind (renderButtons rest) (fun es => Ok (e :: es)))
  end.

(** Lines 62-111: the container's class string and its children. *)
Definition ActionButtons (p : ActionButtonsProps) : result (string * list Element) :=
  let cls := containerClasses p in
  bind (renderButtons (buttons p)) (fun es => Ok (cls, es)).

End Action.

(** ** Class resolution of [PageLayout] (PageLayout.tsx, lines 41-129) *)

Module Layout.

Record LayoutPreset : Type := {
  preset_container : string;
  preset_main : string;
  preset_footer : string
}.

Definition layoutVariants : gmap string LayoutPreset :=
  {[ "default" :=
       {| preset_container := "grid grid-rows-[20px_1fr_20px] items-center justify-items-center min-h-screen p-8 pb-20 gap-16 sm:p-20";
          preset_main := "flex flex-col gap-[32px] row-start-2 items-center sm:items-start";
          preset_footer := "row-start-3" |};
     "landing" :=
       {| preset_container := "min-h-screen flex flex-col";
          preset_main := "flex-1 flex flex-col items-center justify-center px-4 sm:px-6 lg:px-8";
          preset_footer := "mt-auto" |};
     "app" :=
       {| preset_container := "min-h-screen grid grid-rows-[auto_1fr_auto]";
          preset_main := "container mx-auto px-4 sm:px-6 lg:px-8 py-8";
          preset_footer := "" |};
     "docs" :=
       {| preset_container := "min-h-screen grid grid-rows-[auto_1fr_auto]";
          preset_main := "container mx-auto px-4 sm:px-6 lg:px-8 py-8 max-w-4xl";
          preset_footer := "" |};
     "centered" :=
       {| preset_container := "min-h-screen flex flex-col items-center justify-center p-4";
          preset_main := "w-full max-w-md";
          preset_footer := "mt-8" |};
     "fullscreen" :=
       {| preset_container := "min-h-screen flex flex-col";
          preset_main := "flex-1";
          preset_footer := "" |} ]}.

Definition maxWidthClasses : gmap string string :=
  {[ "sm" := "max-w-sm"; "md" := "max-w-md"; "lg" := "max-w-lg";
     "xl" := "max-w-xl"; "2xl" := "max-w-2xl"; "full" := "max-w-full";
     "none" := "" ]}.

Definition backgroundVariants : gmap string string :=
  {[ "default" := "";
     "gradient" := "bg-gradient-to-br from-background via-background to-muted/20";
     "grid" := "bg-grid-pattern";
     "dots" := "bg-dots-pattern";
     "none" := "" ]}.

Record MainConfig : Type := {
  main_className : option string;
  main_centered : option bool;
  main_maxWidth : option string;
  main_padding : option bool
}.

Record ContainerConfig : Type := {
  container_className : option string;
  container_fluid : option bool
}.

Record PageLayoutProps : Type := {
  variant : option string;
  main : option MainConfig;
  container : option ContainerConfig;
  className : option string;
  background : option string
}.

Definition emptyMain : MainConfig :=
  {| main_className := None; main_centered := None;
     main_maxWidth := None; main_padding := None |}.

Definition emptyContainer : ContainerConfig :=
  {| container_className := None; container_fluid := None |}.

Record LayoutClasses : Type := {
  containerClasses : string;
  mainClasses : string
}.

(** [layout.field] for [layout = layoutVariants[variant]]: a [TypeError]
    when [layout] is [undefined], [undefined] on an inherited member. *)
Definition layoutField (layout : lookup_result LayoutPreset)
    (field : LayoutPreset -> string) (name : string) : result ClassValue :=
  match layout with
  | Own l => Ok (CVString (field l))
  | Inherited => Ok CVUndefined
  | Undefined =>
      Throw (TypeError ("Cannot read properties of undefined (reading '"
                        +:+ name +:+ "')"))
  end.

(** [main.maxWidth ? maxWidthClasses[main.maxWidth] : '']. *)
Definition maxWidthClass (maxWidth : option string) : ClassValue :=
  match maxWidth with
  | Some k => if truthy_str k then of_lookup (get maxWidthClasses k) else CVString ""
  | None => CVString ""
  end.

(** [c ? s : '']. *)
Definition class_if (c : bool) (s : string) : ClassValue :=
  CVString (if c then s else "").

(** Lines 112-129: the class strings [PageLayout] computes for its
    container and its main element. The header and footer it renders do
    not enter them. *)
Definition PageLayout (p : PageLayoutProps) : result LayoutClasses :=
  let variant := default "default" (variant p) in
  let main := default emptyMain (main p) in
  let container := default emptyContainer (container p) in
  let background := default "default" (background p) in
  let layout := get layoutVariants variant in
  bind (layoutField layout preset_container "container") (fun layout_container =>
  let containerClasses :=
    cn [ layout_container;
         of_lookup (get backgroundVariants background);
         CVString "font-[family-name:var(--font-geist-sans)]";
         class_if (truthy_bool (container_fluid container)) "w-full";
         of_option (container_className container);
         of_option (className p) ] in
  bind (layoutField layout preset_main "main") (fun layout_main =>
  let mainClasses :=
    cn [ layout_main;
         of_option (main_className main);
         maxWidthClass (main_maxWidth main);
         class_if (truthy_bool (main_centered main)
                   && negb (bool_decide (variant = "centered"))) "mx-auto";
         class_if (negb (bool_decide (main_padding main = Some false))
                   && bool_decide (variant = "fullscreen")) "p-4 sm:p-6 lg:p-8" ] in
  Ok {| containerClasses := containerClasses; mainClasses := mainClasses |})).

End Layout.

(** ** Pre-built button sets (action-button module, lines 187-353) *)

Module Presets.
Import React Action.


(** A button configuration that sets only its label, href and variant. *)
Definition linkConfig (label : string) (href : option string) (variant : string)
  : ActionButtonConfig :=
  {| label := label; href := href; variant := Some variant; size := None;
     width := None; icon := None; external := None; target := None;
     rel := None; className := None; loading := None; disabled := None;
     onClick := None |}.

(** Lines 224-260. *)
Definition CTAButtons (primaryLabel primaryHref secondaryLabel secondaryHref
                       className : option string)
  : result (string * list Element) :=
  ActionButtons
    {| buttons :=
         [ linkConfig (default "Get Started" primaryLabel)
                      (Some (default "/signup" primaryHref)) "primary";
           linkConfig (default "Learn More" secondaryLabel)
                      (Some (default "/docs" secondaryHref)) "secondary" ];
       direction := Some "horizontal"; align := Some "center"; gap := Some "md";
       container_width := None; container_className := className;
       responsive := Some {| mobile := Some "stack"; tablet := None |} |}.




(** The [buttons] array lines 308-324 fill: the login button when
    [showLogin], then the signup button when [showSignup]. *)
Definition authConfigs (showLogin showSignup : option bool)
    (loginHref signupHref : option string) : list ActionButtonConfig :=
  (if default true showLogin
   then [ linkConfig "Log in" (Some (default "/login" loginHref)) "ghost" ]
   else [])
  ++ (if default true showSignup
      then [ linkConfig "Sign up" (Some (default "/signup" signupHref)) "primary" ]
      else []).

(** Lines 295-335. *)
Definition AuthButtons (showLogin showSignup : option bool)
    (loginHref signupHref className : option string)
  : result (string * list Element) :=
  ActionButtons
    {| buttons := authConfigs showLogin showSignup loginHref signupHref;
       direction := Some "horizontal"; align := Some "center"; gap := Some "sm";
       container_width := None; container_className := className;
       responsive := None |}.



End Presets.

(** ** [Logo] and its variants (lines 355-515 of the same source file) *)

Module LogoUi.
Import React.

(** A prop as a caller writes it in JSX: left out, or given with a value
    that may still be [undefined]. A spread copies the given ones only. *)
Inductive passed (A : Type) : Type :=
| Absent
| Given (v : option A).
Arguments Absent {A}.
Arguments Given {A} v.

(** The value a destructuring pattern sees. *)
Definition value {A} (p : passed A) : option A :=
  match p with Absent => None | Given v => v end.

(** One property of [{ base, ...over }]. *)
Definition over_prop {A} (base over : passed A) : passed A :=
  match over with Absent => base | Given _ => over end.

Record LogoProps : Type := {
  src : passed string;
  alt : passed string;
  width : passed Z;
  height : passed Z;
  invertOnDark : passed bool;
  linkToHome : passed bool;
  href : passed string;
  size : passed string;
  className : passed string;
  priority : passed bool;
  loading : passed bool;
  onClick : passed Handle
}.

Definition noProps : LogoProps :=
  {| src := Absent; alt := Absent; width := Absent; height := Absent;
     invertOnDark := Absent; linkToHome := Absent; href := Absent;
     size := Absent; className := Absent; priority := Absent;
     loading := Absent; onClick := Absent |}.

(** [{ ...base, ...over }]. *)
Definition spread (base over : LogoProps) : LogoProps :=
  {| src := over_prop (src base) (src over);
     alt := over_prop (alt base) (alt over);
     width := over_prop (width base) (width over);
     height := over_prop (height base) (height over);
     invertOnDark := over_prop (invertOnDark base) (invertOnDark over);
     linkToHome := over_prop (linkToHome base) (linkToHome over);
     href := over_prop (href base) (href over);
     size := over_prop (size base) (size over);
     className := over_prop (className base) (className over);
     priority := over_prop (priority base) (priority over);
     loading := over_prop (loading base) (loading over);
     onClick := over_prop (onClick base) (onClick over) |}.

Record Dimensions : Type := {
  dim_width : option Z;
  dim_height : option Z
}.

Definition sizeConfig : gmap string Dimensions :=
  {[ "sm" := {| dim_width := Some 100%Z; dim_height := Some 20%Z |};
     "md" := {| dim_width := Some 140%Z; dim_height := Some 28%Z |};
     "lg" := {| dim_width := Some 180%Z; dim_height := Some 38%Z |};
     "xl" := {| dim_width := Some 220%Z; dim_height := Some 48%Z |};
     "custom" := {| dim_width := None; dim_height := None |} ]}.

(** [n || fallback] on optional numbers. *)
Definition or_opt (n fallback : option Z) : option Z :=
  match n with
  | Some v => if Z.eqb v 0 then fallback else n
  | None => fallback
  end.

(** Lines 413-415: the custom dimensions, or the preset of [size]. *)
Definition dimensions (size : string) (width height : option Z)
  : lookup_result Dimensions :=
  if bool_decide (size = "custom")
  then Own {| dim_width := Some (or_num width 180);
              dim_height := Some (or_num height 38) |}
  else get sizeConfig size.

(** Lines 417-418, [given || dimensions.field]: the right operand is read, and can
    throw, only when the left one is falsy. *)
Definition finalDimension (given : option Z) (dims : lookup_result Dimensions)
    (field : Dimensions -> option Z) (name : string) : result (option Z) :=
  match given with
  | Some v =>
      if Z.eqb v 0
      then match dims with
           | Own d => Ok (field d)
           | Inherited => Ok None
           | Undefined =>
               Throw (TypeError ("Cannot read properties of undefined (reading '"
                                 +:+ name +:+ "')"))
           end
      else Ok (Some v)
  | None =>
      match dims with
      | Own d => Ok (field d)
      | Inherited => Ok None
      | Undefined =>
          Throw (TypeError ("Cannot read properties of undefined (reading '"
                            +:+ name +:+ "')"))
      end
  end.

(** [c && s] as a class value: the string, or [false], which [clsx]
    skips like [null]. *)
Definition class_when (c : bool) (s : string) : ClassValue :=
  if c then CVString s else CVNull.

Record LogoImage : Type := {
  img_src : string;
  img_alt : string;
  img_width : option Z;
  img_height : option Z;
  img_priority : bool;
  img_className : string;
  img_onClick : option Handle
}.

(** What [Logo] returns: the image, bare or inside a link. *)
Inductive LogoElement : Type :=
| Bare (image : LogoImage)
| Linked (href : string) (image : LogoImage).

Definition image_of (e : LogoElement) : LogoImage :=
  match e with Bare i => i | Linked _ i => i end.

(** Lines 396-455. *)
Definition Logo (p : LogoProps) : result LogoElement :=
  let src := default "/next.svg" (value (src p)) in
  let alt := default "Logo" (value (alt p)) in
  let width := value (width p) in
  let height := value (height p) in
  let invertOnDark := default true (value (invertOnDark p)) in
  let linkToHome := default false (value (linkToHome p)) in
  let href := default "/" (value (href p)) in
  let size := default "lg" (value (size p)) in
  let priority := default false (value (priority p)) in
  let loading := default false (value (loading p)) in
  let onClick := value (onClick p) in
  let dims := dimensions size width height in
  bind (finalDimension width dims dim_width "width") (fun finalWidth =>
  bind (finalDimension height dims dim_height "height") (fun finalHeight =>
  let logoClasses :=
    cn [ CVString "transition-opacity duration-200";
         class_when invertOnDark "dark:invert";
         class_when loading "opacity-50";
         class_when (bool_decide (is_Some onClick)) "cursor-pointer hover:opacity-80";
         of_option (value (className p)) ] in
  let logoElement :=
    {| img_src := src; img_alt := alt;
       img_width := finalWidth; img_height := finalHeight;
       img_priority := priority; img_className := logoClasses;
       img_onClick := onClick |} in
  Ok (if linkToHome || negb (bool_decide (href = "/"))
      then Linked href logoElement
      else Bare logoElement))).

(** Lines 460-469. *)
Definition NextLogo (props : LogoProps) : result LogoElement :=
  Logo (spread {| src := Given (Some "/next.svg");
                  alt := Given (Some "Next.js logo");
                  width := Absent; height := Absent; invertOnDark := Absent;
                  linkToHome := Absent; href := Absent; size := Absent;
                  className := Absent; priority := Absent; loading := Absent;
                  onClick := Absent |}
               props).

(** Lines 471-483. *)
Definition VercelLogo (props : LogoProps) : result LogoElement :=
  Logo (spread {| src := Given (Some "/vercel.svg");
                  alt := Given (Some "Vercel logomark");
                  width := Given (Some 20%Z); height := Given (Some 20%Z);
                  invertOnDark := Absent; linkToHome := Absent; href := Absent;
                  size := Given (Some "sm");
                  className := Absent; priority := Absent; loading := Absent;
                  onClick := Absent |}
               props).

(** Lines 486-496: [className] is taken out of the props before the
    spread, the other props can override. *)
Definition BrandLogo (props : LogoProps) : result LogoElement :=
  Logo (spread {| src := Absent; alt := Absent; width := Absent;
                  height := Absent; invertOnDark := Absent;
                  linkToHome := Given (Some true); href := Absent;
                  size := Absent;
                  className :=
                    Given (Some (cn [ CVString "select-none";
                                      of_option (value (className props)) ]));
                  priority := Given (Some true); loading := Absent;
                  onClick := Absent |}
               {| src := src props; alt := alt props; width := width props;
                  height := height props; invertOnDark := invertOnDark props;
                  linkToHome := linkToHome props; href := href props;
                  size := size props; className := Absent;
                  priority := priority props; loading := loading props;
                  onClick := onClick props |}).

(** Lines 499-513: the width and height of the skeleton's style. *)
Definition LogoSkeleton (size : option string) : result Dimensions :=
  match get sizeConfig (default "lg" size) with
  | Own d => Ok d
  | Inherited => Ok {| dim_width := None; dim_height := None |}
  | Undefined =>
      Throw (TypeError "Cannot read properties of undefined (reading 'width')")
  end.

End LogoUi.

(** ** Element trees of the header and the footer *)

Module Dom.
Import React.

(** A node the caller hands in ([icon], [actions], [children]): nothing,
    a text, or an element that is never looked into. *)
Inductive Given : Type :=
| GUndefined
| GNull
| GFalse
| GText (s : string)
| GElement (h : Handle).

Definition truthy_given (g : Given) : bool :=
  match g with
  | GUndefined | GNull | GFalse => false
  | GText s => truthy_str s
  | GElement _ => true
  end.

Inductive AttrValue : Type :=
| AString (s : string)
| ABool (b : bool)
| AHandler (h : option Handle)
(** the closure [() => h?.()] *)
| ACall (h : option Handle).

(** What the header and footer components return once the components of
    their own files are rendered. [NComponent] is an element of a
    component from another file, kept with its props and children. The
    [path] inside an [svg] is left out. *)
#[warnings="-register-all"]
Inductive Node : Type :=
| NFalse
| NNull
| NText (s : string)
| NGiven (g : Given)
| NList (items : list Node)
| NEl (tag : string) (attrs : list (string * AttrValue)) (children : list Node)
| NComponent (name : string) (attrs : list (string * AttrValue))
             (children : list Node)
| NLogo (e : LogoUi.LogoElement).

(** [c && n] for a boolean [c]. *)
Definition and_bool (c : bool) (n : Node) : Node := if c then n else NFalse.

(** [s && n] for an optional string [s]. *)
Definition and_string (s : option string) (n : Node) : Node :=
  match s with
  | Some t => if truthy_str t then n else NText t
  | None => NGiven GUndefined
  end.

(** [g && n] for a caller's node [g]. *)
Definition and_given (g : Given) (n : Node) : Node :=
  if truthy_given g then n else NGiven g.

(** The number of elements with the given tag that the components put in
    the tree. *)
Fixpoint count_tag (tag : string) (n : Node) : nat :=
  match n with
  | NList items => list_sum (map (count_tag tag) items)
  | NEl t _ children =>
      (if bool_decide (t = tag) then 1 else 0)
      + list_sum (map (count_tag tag) children)
  | NComponent _ _ children => list_sum (map (count_tag tag) children)
  | _ => 0
  end.

(** The value of an attribute: the last one of that name wins. *)
Definition attr (name : string) (attrs : list (string * AttrValue))
  : option AttrValue :=
  last (omap (fun kv => if bool_decide (fst kv = name) then Some (snd kv) else None)
             attrs).

(** The attributes of an element; none for any other node. *)
Definition attrs_of (n : Node) : list (string * AttrValue) :=
  match n with NEl _ attrs _ => attrs | _ => [] end.

(** [{ target: "_blank", rel: "noopener noreferrer" }] or [{}]. *)
Definition linkProps (external : bool) : list (string * AttrValue) :=
  if external
  then [ ("target", AString "_blank"); ("rel", AString "noopener noreferrer") ]
  else [].

(** The arrow that marks an external link. *)
Definition externalIcon (className : string) (ariaHidden : bool) : Node :=
  NEl "svg"
      ([ ("className", AString className) ]
       ++ (if ariaHidden then [ ("aria-hidden", AString "true") ] else []))
      [].

End Dom.

(** ** [Header] and its parts (Header.tsx) *)

Module HeaderUi.
Import React Dom.

Record NavigationItem : Type := {
  label : string;
  href : string;
  active : option bool;
  external : option bool;
  icon : Given
}.

(** Lines 134-164. *)
Definition NavLink (item : NavigationItem) : Node :=
  let active := default false (active item) in
  let external := default false (external item) in
  let linkClasses :=
    cn [ CVString "flex items-center space-x-1 text-sm font-medium transition-colors";
         CVString "hover:text-foreground focus:outline-none focus:ring-2 focus:ring-ring focus:ring-offset-2 rounded-md px-3 py-2";
         CVString (if active then "text-foreground"
                   else "text-muted-foreground hover:text-foreground") ] in
  NEl "a"
      ([ ("href", AString (href item)); ("className", AString linkClasses) ]
       ++ linkProps external)
      [ and_given (icon item)
                  (NEl "span" [ ("className", AString "w-4 h-4") ]
                       [ NGiven (icon item) ]);
        NEl "span" [] [ NText (label item) ];
        and_bool external (externalIcon "w-3 h-3 ml-1" false) ].

(** Lines 178-199: one link of the mobile menu. *)
Definition mobileLink (onClose : AttrValue) (item : NavigationItem) : Node :=
  NEl "a"
      ([ ("href", AString (href item));
         ("className",
          AString (cn [ CVString "block px-3 py-2 rounded-md text-base font-medium transition-colors";
                        CVString (if truthy_bool (active item)
                                  then "text-foreground bg-muted"
                                  else "text-muted-foreground hover:text-foreground hover:bg-muted") ]));
         ("onClick", onClose) ]
       ++ linkProps (truthy_bool (external item)))
      [ NEl "div" [ ("className", AString "flex items-center space-x-2") ]
            [ and_given (icon item)
                        (NEl "span" [ ("className", AString "w-4 h-4") ]
                             [ NGiven (icon item) ]);
              NEl "span" [] [ NText (label item) ];
              and_bool (truthy_bool (external item))
                       (externalIcon "w-3 h-3" false) ] ].

(** Lines 167-204. *)
Definition MobileMenu (items : list NavigationItem) (open : bool)
    (onClose : AttrValue) : Node :=
  if negb open then NNull
  else
    NEl "div" [ ("className", AString "md:hidden") ]
        [ NEl "div"
              [ ("className", AString "px-2 pt-2 pb-3 space-y-1 border-t border-border") ]
              [ NList (map (mobileLink onClose) items) ] ].

(** Lines 207-222. *)
Definition MenuIcon (open : bool) : Node :=
  let bar (extra : string) :=
    NEl "div"
        [ ("className",
           AString (cn [ CVString "w-5 h-0.5 bg-current transition-all duration-300";
                         CVString extra ])) ]
        [] in
  NEl "div"
      [ ("className", AString "w-6 h-6 flex flex-col justify-center items-center") ]
      [ bar (if open then "rotate-45 translate-y-1" else "mb-1");
        bar (if open then "opacity-0" else "mb-1");
        bar (if open then "-rotate-45 -translate-y-1" else "") ].

Record HeaderLogo : Type := {
  logo_src : option string;
  logo_alt : option string;
  logo_size : option string;
  logo_linkToHome : option bool
}.

Record HeaderProps : Type := {
  showLogo : option bool;
  logo : option HeaderLogo;
  navigation : option (list NavigationItem);
  actions : Given;
  sticky : option bool;
  bordered : option bool;
  variant : option string;
  className : option string;
  showMobileMenu : option bool;
  mobileMenuOpen : option bool;
  onMobileMenuToggle : option Handle
}.

Definition emptyLogo : HeaderLogo :=
  {| logo_src := None; logo_alt := None; logo_size := None;
     logo_linkToHome := None |}.

Definition headerVariants : gmap string string :=
  {[ "default" := "bg-background/95 backdrop-blur supports-[backdrop-filter]:bg-background/60";
     "transparent" := "bg-transparent";
     "blur" := "bg-background/80 backdrop-blur-md" ]}.

(** Lines 65-71. *)
Definition headerClasses (p : HeaderProps) : string :=
  cn [ CVString "w-full transition-all duration-200";
       of_lookup (get headerVariants (default "default" (variant p)));
       LogoUi.class_when (default false (sticky p)) "sticky top-0 z-50";
       LogoUi.class_when (default false (bordered p)) "border-b border-border";
       of_option (className p) ].

(** Lines 78-87: the logo section, with the [BrandLogo] rendered. *)
Definition logoSection (p : HeaderProps) : result Node :=
  if default true (showLogo p)
  then
    let logo := default emptyLogo (logo p) in
    bind (LogoUi.BrandLogo
            {| LogoUi.src := LogoUi.Given (logo_src logo);
               LogoUi.alt := LogoUi.Given (logo_alt logo);
               LogoUi.width := LogoUi.Absent;
               LogoUi.height := LogoUi.Absent;
               LogoUi.invertOnDark := LogoUi.Absent;
               LogoUi.linkToHome :=
                 LogoUi.Given
                   (Some (negb (bool_decide (logo_linkToHome logo = Some false))));
               LogoUi.href := LogoUi.Absent;
               LogoUi.size := LogoUi.Given (or_str (logo_size logo) (Some "md"));
               LogoUi.className := LogoUi.Absent;
               LogoUi.priority := LogoUi.Absent;
               LogoUi.loading := LogoUi.Absent;
               LogoUi.onClick := LogoUi.Absent |})
         (fun brand =>
            Ok (NEl "div" [ ("className", AString "flex-shrink-0") ]
                    [ NLogo brand ]))
  else Ok NFalse.

(** Lines 90-96. *)
Definition desktopNav (p : HeaderProps) : Node :=
  let navigation := default [] (navigation p) in
  and_bool (bool_decide (0 < length navigation))
           (NEl "nav" [ ("className", AString "hidden md:flex items-center space-x-8") ]
                [ NList (map NavLink navigation) ]).

(** Lines 103-113: the [Button] that toggles the mobile menu. *)
Definition menuToggle (p : HeaderProps) : Node :=
  and_bool (default false (showMobileMenu p))
           (NComponent "Button"
              [ ("variant", AString "ghost"); ("size", AString "icon");
                ("className", AString "md:hidden");
                ("onClick", AHandler (onMobileMenuToggle p));
                ("aria-label", AString "Toggle mobile menu") ]
              [ MenuIcon (default false (mobileMenuOpen p)) ]).

(** Lines 118-124. *)
Definition mobileNav (p : HeaderProps) : Node :=
  let navigation := default [] (navigation p) in
  and_bool (default false (showMobileMenu p)
            && bool_decide (0 < length navigation))
           (MobileMenu navigation (default false (mobileMenuOpen p))
                       (ACall (onMobileMenuToggle p))).

(** Lines 44-129. *)
Definition Header (p : HeaderProps) : result Node :=
  bind (logoSection p) (fun logoNode =>
  Ok (NEl "header" [ ("className", AString (headerClasses p)) ]
          [ NEl "div" [ ("className", AString "container mx-auto px-4 sm:px-6 lg:px-8") ]
                [ NEl "div"
                      [ ("className", AString "flex items-center justify-between h-16 sm:h-20") ]
                      [ logoNode;
                        desktopNav p;
                        NEl "div" [ ("className", AString "flex items-center space-x-4") ]
                            [ NGiven (actions p); menuToggle p ] ];
                  mobileNav p ] ])).

(** Lines 225-234. *)
Definition SimpleHeader (logoSrc logoAlt className : option string) : result Node :=
  Header {| showLogo := None;
            logo := Some {| logo_src := logoSrc; logo_alt := logoAlt;
                            logo_size := None; logo_linkToHome := None |};
            navigation := None; actions := GUndefined; sticky := None;
            bordered := None; variant := None; className := className;
            showMobileMenu := None; mobileMenuOpen := None;
            onMobileMenuToggle := None |}.


(** Lines 252-261. *)
Definition LandingHeader (ctaButton : Given) (className : option string)
  : result Node :=
  Header {| showLogo := None; logo := None; navigation := None;
            actions := ctaButton; sticky := None; bordered := None;
            variant := Some "transparent"; className := className;
            showMobileMenu := None; mobileMenuOpen := None;
            onMobileMenuToggle := None |}.

End HeaderUi.

(** ** [Footer] and its parts (Footer.tsx) *)

Module FooterUi.
Import React Dom.

Record FooterLink : Type := {
  label : string;
  href : string;
  icon : Given;
  external : option bool;
  ariaHidden : option bool
}.

Record FooterSection : Type := {
  title : option string;
  section_links : list FooterLink
}.

Record FooterLogo : Type := {
  logo_src : option string;
  logo_alt : option string;
  logo_size : option string
}.

(** Lines 233-286. [variant] is the prop set beside the spread of the
    link, if any. *)
Definition FooterLinkEl (link : FooterLink) (variant : option string) : Node :=
  let external := default false (external link) in
  let ariaHidden := default false (ariaHidden link) in
  let variant := default "default" variant in
  let linkClasses :=
    cn [ CVString "inline-flex items-center gap-2 text-sm transition-colors";
         CVString "hover:text-foreground focus:outline-none focus:ring-2 focus:ring-ring focus:ring-offset-2 rounded-sm";
         CVDict [ ("text-muted-foreground hover:underline hover:underline-offset-4",
                   bool_decide (variant = "default"));
                  ("text-muted-foreground hover:text-foreground",
                   bool_decide (variant = "stacked"));
                  ("text-muted-foreground hover:text-foreground text-xs",
                   bool_decide (variant = "minimal")) ] ] in
  NEl "a"
      ([ ("href", AString (href link));
         ("className", AString linkClasses);
         ("aria-hidden", ABool ariaHidden) ]
       ++ linkProps external)
      [ and_given (icon link)
                  (NEl "span" [ ("className", AString "w-4 h-4 flex-shrink-0");
                                ("aria-hidden", ABool ariaHidden) ]
                       [ NGiven (icon link) ]);
        NEl "span" [] [ NText (label link) ];
        and_bool external (externalIcon "w-3 h-3 opacity-50" true) ].

(** The [<Logo>] of the three contents: [size || fallback], always
    linked home. *)
Definition footerLogo (logo : option FooterLogo) (fallback : string)
    (className : LogoUi.passed string) : result LogoUi.LogoElement :=
  LogoUi.Logo
    {| LogoUi.src := LogoUi.Given (logo ≫= logo_src);
       LogoUi.alt := LogoUi.Given (logo ≫= logo_alt);
       LogoUi.width := LogoUi.Absent;
       LogoUi.height := LogoUi.Absent;
       LogoUi.invertOnDark := LogoUi.Absent;
       LogoUi.linkToHome := LogoUi.Given (Some true);
       LogoUi.href := LogoUi.Absent;
       LogoUi.size := LogoUi.Given (or_str (logo ≫= logo_size) (Some fallback));
       LogoUi.className := className;
       LogoUi.priority := LogoUi.Absent;
       LogoUi.loading := LogoUi.Absent;
       LogoUi.onClick := LogoUi.Absent |}.

(** [showLogo && wrap(<Logo/>)]: the logo is rendered only when shown. *)
Definition logoBlock (showLogo : bool) (logo : option FooterLogo)
    (fallback : string) (className : LogoUi.passed string)
    (wrap : Node -> Node) : result Node :=
  if showLogo
  then bind (footerLogo logo fallback className) (fun l => Ok (wrap (NLogo l)))
  else Ok NFalse.

(** Lines 115-143. *)
Definition SimpleFooterContent (links : list FooterLink) (showLogo : bool)
    (logo : option FooterLogo) (copyright : option string) : result Node :=
  bind (logoBlock showLogo logo "sm" LogoUi.Absent
          (fun l => NEl "div"
                        [ ("className", AString "w-full flex justify-center mb-4") ]
                        [ l ]))
       (fun logoNode =>
  Ok (NList
        [ logoNode;
          NList (map (fun link => FooterLinkEl link None) links);
          and_string copyright
            (NEl "div"
                 [ ("className",
                    AString "w-full text-center text-xs text-muted-foreground mt-4") ]
                 [ NText (default "" copyright) ]) ])).

(** Lines 166-181: one section of the detailed footer. *)
Definition sectionBlock (section : FooterSection) : Node :=
  NEl "div" [ ("className", AString "space-y-3") ]
      [ and_string (title section)
          (NEl "h3" [ ("className", AString "font-semibold text-sm text-foreground") ]
               [ NText (default "" (title section)) ]);
        NEl "ul" [ ("className", AString "space-y-2") ]
            [ NList (map (fun link =>
                            NEl "li" [] [ FooterLinkEl link (Some "stacked") ])
                         (section_links section)) ] ].

(** Lines 146-198. *)
Definition DetailedFooterContent (sections : list FooterSection)
    (links : list FooterLink) (showLogo : bool) (logo : option FooterLogo)
    (copyright : option string) : result Node :=
  bind (logoBlock showLogo logo "md" (LogoUi.Given (Some "mb-4"))
          (fun l => NEl "div" [ ("className", AString "md:col-span-1") ] [ l ]))
       (fun logoNode =>
  Ok (NList
        [ logoNode;
          NList (map sectionBlock sections);
          and_bool (bool_decide (length sections = 0)
                    && bool_decide (0 < length links))
            (NEl "div"
                 [ ("className",
                    AString "md:col-span-full flex flex-wrap gap-6 justify-center") ]
                 [ NList (map (fun link => FooterLinkEl link None) links) ]);
          and_string copyright
            (NEl "div"
                 [ ("className",
                    AString "md:col-span-full text-center text-xs text-muted-foreground pt-4 border-t border-border") ]
                 [ NText (default "" copyright) ]) ])).

(** Lines 201-230. *)
Definition MinimalFooterContent (links : list FooterLink) (showLogo : bool)
    (logo : option FooterLogo) (copyright : option string) : result Node :=
  bind (logoBlock showLogo logo "sm" LogoUi.Absent (fun l => l))
       (fun logoNode =>
  Ok (NList
        [ NEl "div" [ ("className", AString "flex items-center space-x-4") ]
              [ logoNode;
                and_string copyright
                  (NEl "span" [ ("className", AString "text-xs text-muted-foreground") ]
                       [ NText (default "" copyright) ]) ];
          NEl "div" [ ("className", AString "flex items-center space-x-4") ]
              [ NList (map (fun link => FooterLinkEl link (Some "minimal")) links) ] ])).

Record FooterProps : Type := {
  links : option (list FooterLink);
  sections : option (list FooterSection);
  showLogo : option bool;
  logo : option FooterLogo;
  copyright : option string;
  children : Given;
  variant : option string;
  className : option string;
  gridPosition : option string
}.

Definition footerVariants : gmap string string :=
  {[ "simple" := "flex gap-6 flex-wrap items-center justify-center";
     "detailed" := "grid grid-cols-1 md:grid-cols-4 gap-8";
     "minimal" := "flex items-center justify-between" ]}.

(** [variant === name && content]: the content is rendered only for its
    variant. *)
Definition whenVariant (variant name : string) (content : result Node)
  : result Node :=
  if bool_decide (variant = name) then content else Ok NFalse.

(** Lines 44-110. *)
Definition Footer (p : FooterProps) : result Node :=
  let links := default [] (links p) in
  let sections := default [] (sections p) in
  let showLogo := default false (showLogo p) in
  let logo := Some (default {| logo_src := None; logo_alt := None;
                               logo_size := None |} (logo p)) in
  let variant := default "simple" (variant p) in
  let gridPosition := default "row-start-3" (gridPosition p) in
  let footerClasses :=
    cn [ CVString gridPosition;
         CVString "w-full py-6 px-4 sm:px-6 lg:px-8 border-t border-border bg-background/50";
         of_option (className p) ] in
  let contentClasses :=
    cn [ CVString "container mx-auto";
         of_lookup (get footerVariants variant) ] in
  bind (whenVariant variant "simple"
          (SimpleFooterContent links showLogo logo (copyright p)))
       (fun simple =>
  bind (whenVariant variant "detailed"
          (DetailedFooterContent sections links showLogo logo (copyright p)))
       (fun detailed =>
  bind (whenVariant variant "minimal"
          (MinimalFooterContent links showLogo logo (copyright p)))
       (fun minimal =>
  Ok (NEl "footer" [ ("className", AString footerClasses) ]
          [ NEl "div" [ ("className", AString contentClasses) ]
                [ simple; detailed; minimal; NGiven (children p) ] ])))).

(** Lines 344-356. *)
Definition CompanyFooter (sections : option (list FooterSection))
    (copyright className : option string) : result Node :=
  Footer {| links := None; sections := Some (default [] sections);
            showLogo := Some true; logo := None; copyright := copyright;
            children := GUndefined; variant := Some "detailed";
            className := className; gridPosition := None |}.

(** Lines 358-369. *)
Definition MinimalFooter (links : option (list FooterLink))
    (copyright className : option string) : result Node :=
  Footer {| FooterUi.links := Some (default [] links); sections := None;
            showLogo := None; logo := None; copyright := copyright;
            children := GUndefined; variant := Some "minimal";
            className := className; gridPosition := None |}.

End FooterUi.

(** ** What [PageLayout] renders around the main content
    (PageLayout.tsx, lines 131-264) *)

Module LayoutRender.
Import React Layout.

















End LayoutRender.

(** ** Vocabulary of the properties *)

(** [has_prefix p s]: the string [s] begins with [p]. *)
Definition has_prefix (p s : string) : Prop := exists rest, s = p +:+ rest.



(** The tokens [clsx] takes from one argument. *)
Definition class_tokens (v : ClassValue) : list string :=
  if truthy_cv v then tokens (toVal v) else [].

(** A string without a space. *)
Fixpoint no_space (s : string) : bool :=
  match s with
  | EmptyString => true
  | String c rest => negb (Ascii.eqb c " ") && no_space rest
  end.

(** The keys of the rule object, whatever the configuration. *)
Definition ruleKeys : list string :=
  [ "flex-col"; "flex-row"; "w-full"; "w-auto";
    Action.stackFragment; Action.wrapFragment; Action.scrollFragment ].

(** The element kind a tag stands for. *)
Definition kind_of_tag (t : Btn.Tag) : React.ElementKind :=
  match t with
  | Btn.TagA => React.Navigable
  | Btn.TagButton => React.Actionable
  end.

(** The label a loading button shows. *)
Definition loadingLabel (p : Btn.ButtonProps) : React.ReactNode :=
  if truthy (Btn.loadingText p)
  then React.RText (default "" (Btn.loadingText p))
  else Btn.children p.

(** One entry of [getVariantClassNames] for a dimension with the given
    table and default. *)
Definition dimensionClass (table : gmap string string) (dflt : string)
    (v : Cva.PropValue) : ClassValue :=
  match v with
  | Cva.PNull => CVNull
  | _ => of_lookup (get table (Cva.key_name (Cva.variantKey v (Some dflt))))
  end.

(** A number that is given and not zero, hence truthy. *)
Definition has_number (n : option Z) : bool :=
  match n with Some v => negb (Z.eqb v 0) | None => false end.

(** A logo that is wrapped in a link. *)
Definition is_linked (e : LogoUi.LogoElement) : bool :=
  match e with LogoUi.Linked _ _ => true | LogoUi.Bare _ => false end.


(** A logo size that [Logo] cannot resolve: a non-empty string other than
    "custom" that [sizeConfig] does not know. *)
Definition bad_logo_size (size : option string) : Prop :=
  exists s, size = Some s /\ s <> "" /\ s <> "custom"
            /\ unknown_key LogoUi.sizeConfig s.

(** The variants [Footer] has a content for. *)
Definition footerContents : list string := [ "simple"; "detailed"; "minimal" ].

(** The variants [layoutVariants] declares. *)
Definition declaredLayouts : list string :=
  [ "default"; "landing"; "app"; "docs"; "centered"; "fullscreen" ].

(** An optional setting handed on as a variant prop. *)
Definition prop_of (v : option string) : Cva.PropValue :=
  match v with Some s => Cva.PString s | None => Cva.PUndefined end.

(** ** Sample configurations *)

Module Samples.
Import Cva React.

(** [<Button href={href} loading={loading}>Save</Button>]. *)
Definition saveButton (href : option string) (loading : option bool) : Btn.ButtonProps :=
  {| Btn.className := None; Btn.variant := PUndefined; Btn.size := PUndefined;
     Btn.width := PUndefined; Btn.href := href; Btn.target := None;
     Btn.rel := None; Btn.icon := RUndefined; Btn.iconPosition := None;
     Btn.loading := loading; Btn.loadingText := None;
     Btn.children := RText "Save";
     Btn.disabled := None; Btn.onClick := Some (HandleId 0); Btn.ref := None |}.

End Samples.

Module ActionSamples.
Import React Action.


(** [{ label: "Docs", href: "/docs", icon }]. *)
Definition docsButton (icon : option IconConfig) : ActionButtonConfig :=
  {| label := "Docs"; href := Some "/docs"; variant := None; size := None;
     width := None; icon := icon; external := None; target := None;
     rel := None; className := None; loading := None; disabled := None;
     onClick := None |}.

(** An icon descriptor with neither [src] nor [alt]. *)
Definition blankIcon : IconConfig :=
  {| icon_src := None; icon_alt := None; icon_width := None;
     icon_height := None; icon_position := None; icon_className := None |}.

End ActionSamples.

Module LayoutSamples.
Import Layout.

(** [{ ...p, main: { ...p.main, maxWidth } }]. *)
Definition with_maxWidth (p : PageLayoutProps) (maxWidth : option string)
  : PageLayoutProps :=
  let m := default emptyMain (main p) in
  {| variant := variant p;
     main := Some {| main_className := main_className m;
                     main_centered := main_centered m;
                     main_maxWidth := maxWidth;
                     main_padding := main_padding m |};
     container := container p;
     className := className p;
     background := background p |}.

(** [<PageLayout variant={variant} />]. *)
Definition page (variant : option string) : PageLayoutProps :=
  {| variant := variant; main := None; container := None;
     className := None; background := None |}.

End LayoutSamples.

(** * Properties *)

(** ** Strings and class composition *)

Section StringFacts.

Lemma startsWith_has_prefix (s p : string) :
  startsWith s p = true <-> has_prefix p s.
Proof.
  unfold startsWith, has_prefix. revert s.
  induction p as [|a p IH]; intros s; simpl.
  - split; [intros _; exists s; reflexivity | intros _; destruct s; reflexivity].
  - destruct s as [|b s]; simpl.
    + split; [discriminate | intros [r Hr]; discriminate].
    + destruct (Ascii.ascii_dec a b) as [->|Hne].
      * rewrite IH. split.
        -- intros [r ->]. exists r. reflexivity.
        -- intros [r Hr]. injection Hr as ->. exists r. reflexivity.
      * split; [discriminate|].
        intros [r Hr]. injection Hr as Hab _. congruence.
Qed.

Lemma truthy_str_false (s : string) : truthy_str s = false <-> s = "".
Proof. destruct s; simpl; split; congruence. Qed.

Lemma truthy_str_true (s : string) : truthy_str s = true <-> s <> "".
Proof. destruct s; simpl; split; congruence. Qed.

Lemma or_str_truthy (a b : option string) : truthy a = true -> or_str a b = a.
Proof. unfold or_str. intros ->. reflexivity. Qed.

Lemma or_str_falsy (a b : option string) : truthy a = false -> or_str a b = b.
Proof. unfold or_str. intros ->. reflexivity. Qed.

End StringFacts.

Section ClsxFacts.





Lemma unknown_key_not_own {A} (table : gmap string A) (k : string) :
  unknown_key table k -> table !! k = None.
Proof.
  unfold unknown_key, get. destruct (table !! k); [discriminate | reflexivity].
Qed.

End ClsxFacts.

(** ** Tokens of a composed class string *)

Section TokenFacts.
Local Open Scope list_scope.

Lemma tokens_aux_app (cur s1 s2 : string) :
  tokens_aux cur (s1 +:+ " " +:+ s2) = tokens_aux cur s1 ++ tokens s2.
Proof.
  revert cur. induction s1 as [|c s1 IH]; intros cur; simpl.
  - reflexivity.
  - destruct (Ascii.eqb c " "); [|apply IH].
    rewrite IH. rewrite <- app_assoc. reflexivity.
Qed.

Lemma tokens_push (str x : string) : tokens (push str x) = tokens str ++ tokens x.
Proof.
  unfold push. destruct str as [|c str]; simpl; [reflexivity|].
  apply (tokens_aux_app "" (String c str) x).
Qed.

Lemma tokens_fold (args : list ClassValue) (acc : string) :
  tokens (fold_left (fun str tmp =>
                       if truthy_cv tmp
                       then let x := toVal tmp in
                            if truthy_str x then push str x else str
                       else str) args acc)
  = tokens acc ++ concat (map class_tokens args).
Proof.
  revert acc. induction args as [|a args IH]; intros acc; simpl.
  - rewrite app_nil_r. reflexivity.
  - rewrite IH. unfold class_tokens at 2.
    destruct (truthy_cv a); simpl; [|reflexivity].
    destruct (truthy_str (toVal a)) eqn:Hx.
    + rewrite tokens_push, <- app_assoc. reflexivity.
    + apply truthy_str_false in Hx. rewrite Hx. reflexivity.
Qed.

Lemma tokens_clsx (args : list ClassValue) :
  tokens (clsx args) = concat (map class_tokens args).
Proof. unfold clsx. rewrite tokens_fold. reflexivity. Qed.

Lemma tokens_concat (l : list string) :
  tokens (String.concat " " l) = concat (map tokens l).
Proof.
  induction l as [|x l IH]; [reflexivity|].
  destruct l as [|y l].
  - simpl. rewrite app_nil_r. reflexivity.
  - change (String.concat " " (x :: y :: l))
      with (x +:+ " " +:+ String.concat " " (y :: l)).
    unfold tokens at 1. rewrite tokens_aux_app, IH. reflexivity.
Qed.

Lemma no_space_snoc (cur : string) (c : Ascii.ascii) :
  no_space cur = true -> Ascii.eqb c " " = false ->
  no_space (cur +:+ String c "") = true.
Proof.
  intros Hcur Hc. induction cur as [|d cur IH]; simpl in *.
  - rewrite Hc. reflexivity.
  - apply andb_true_iff in Hcur as [Hd Hcur]. rewrite Hd, IH by assumption.
    reflexivity.
Qed.

Lemma append_cons (c : Ascii.ascii) (s t : string) :
  String c s +:+ t = String c (s +:+ t).
Proof. reflexivity. Qed.

Lemma append_empty_r (s : string) : s +:+ "" = s.
Proof.
  induction s as [|c s IH]; [reflexivity|]. rewrite append_cons, IH. reflexivity.
Qed.

Lemma append_snoc (s : string) (c : Ascii.ascii) (t : string) :
  (s +:+ String c "") +:+ t = s +:+ String c t.
Proof.
  induction s as [|d s IH]; [reflexivity|]. rewrite !append_cons, IH. reflexivity.
Qed.

Lemma tokens_aux_word (cur t : string) :
  no_space t = true ->
  tokens_aux cur t = if truthy_str (cur +:+ t) then [cur +:+ t] else [].
Proof.
  revert cur. induction t as [|c t IH]; intros cur Ht; simpl in *.
  - rewrite append_empty_r. reflexivity.
  - apply andb_true_iff in Ht as [Hc Ht]. apply negb_true_iff in Hc.
    rewrite Hc, IH by assumption.
    rewrite append_snoc. reflexivity.
Qed.

Lemma tokens_aux_words (cur s : string) :
  no_space cur = true ->
  Forall (fun t => tokens t = [t]) (tokens_aux cur s).
Proof.
  revert cur. induction s as [|c s IH]; intros cur Hcur; simpl.
  - destruct (truthy_str cur) eqn:Hne; constructor; [|constructor].
    unfold tokens. rewrite tokens_aux_word by assumption.
    change ("" +:+ cur) with cur. rewrite Hne. reflexivity.
  - destruct (Ascii.eqb c " ") eqn:Hc.
    + apply Forall_app. split; [|apply IH; reflexivity].
      destruct (truthy_str cur) eqn:Hne; constructor; [|constructor].
      unfold tokens. rewrite tokens_aux_word by assumption.
      change ("" +:+ cur) with cur. rewrite Hne. reflexivity.
    + apply IH, no_space_snoc; assumption.
Qed.

Lemma concat_singletons (l : list string) :
  Forall (fun t => tokens t = [t]) l -> concat (map tokens l) = l.
Proof.
  induction 1 as [|t l Ht _ IH]; simpl; [reflexivity|].
  rewrite Ht, IH. reflexivity.
Qed.

Lemma Forall_dedupe_last (P : string -> Prop) (l : list string) :
  Forall P l -> Forall P (dedupe_last l).
Proof.
  induction 1 as [|x l Hx _ IH]; simpl; [constructor|].
  case_bool_decide; [assumption | constructor; assumption].
Qed.

Lemma elem_of_dedupe_last (x : string) (l : list string) :
  x ∈ dedupe_last l <-> x ∈ l.
Proof.
  induction l as [|y l IH]; simpl; [reflexivity|].
  case_bool_decide as Hy.
  - rewrite IH, elem_of_cons. split; [auto|]. intros [->|H]; assumption.
  - rewrite !elem_of_cons, IH. reflexivity.
Qed.

(** The tokens of a composed class string: those of the truthy
    arguments, in order, each kept at its last occurrence. *)
Lemma tokens_cn (args : list ClassValue) :
  tokens (cn args) = dedupe_last (concat (map class_tokens args)).
Proof.
  unfold cn. rewrite tokens_concat, tokens_clsx.
  apply concat_singletons, Forall_dedupe_last.
  rewrite <- tokens_clsx. apply tokens_aux_words. reflexivity.
Qed.

Lemma elem_of_concat_map {A} (f : A -> list string) (x : string) (l : list A) :
  x ∈ concat (map f l) <-> exists v, v ∈ l /\ x ∈ f v.
Proof.
  induction l as [|a l IH]; simpl.
  - split; [intros H; apply elem_of_nil in H; contradiction|].
    intros (v & Hv & _). apply elem_of_nil in Hv. contradiction.
  - rewrite elem_of_app, IH. split.
    + intros [H|(v & Hv & H)]; [exists a | exists v];
        (split; [|assumption]); [apply list_elem_of_here |].
      apply list_elem_of_further, Hv.
    + intros (v & Hv & H). apply elem_of_cons in Hv as [->|Hv]; [left | right];
        eauto.
Qed.

Lemma elem_of_tokens_cn (t : string) (args : list ClassValue) :
  t ∈ tokens (cn args) <-> exists v, v ∈ args /\ t ∈ class_tokens v.
Proof. rewrite tokens_cn, elem_of_dedupe_last. apply elem_of_concat_map. Qed.

(** A table none of whose fragments has the token [t] never contributes
    [t], whatever key is read. *)
Lemma table_avoids (t : string) (table : gmap string string) (k : string) :
  map_Forall (fun _ v => t ∉ tokens v) table ->
  t ∉ class_tokens (of_lookup (get table k)).
Proof.
  intros Hall. unfold get. destruct (table !! k) as [v|] eqn:Hk.
  - unfold class_tokens. simpl. destruct (truthy_str v).
    + apply (Hall k v Hk).
    + apply not_elem_of_nil.
  - case_bool_decide; apply not_elem_of_nil.
Qed.

End TokenFacts.

(** ** Link semantics *)

Section LinkFacts.
Import Link.


(** C2. External-link detection is true exactly when the [external] flag
    is true, or the href starts with "http", or the href starts with "//";
    the four sample addresses of the specification evaluate as listed. *)
Theorem isExternal_iff :
  (forall (external : option bool) (href : string),
      isExternal external href = true <->
      external = Some true \/ has_prefix "http" href \/ has_prefix "//" href)
  /\ isExternal None "https://a.com" = true
  /\ isExternal None "//a.com" = true
  /\ isExternal None "/local" = false
  /\ isExternal (Some true) "/local" = true.
Proof.
  split; [|repeat split; reflexivity].
  intros external href. unfold isExternal.
  rewrite !orb_true_iff, !startsWith_has_prefix.
  destruct external as [[|]|]; simpl; intuition congruence.
Qed.



(** A new-context target that was derived rather than supplied implies an
    external link. *)
Lemma derived_target_is_external
    (href : string) (external : option bool) (target rel : option string) (t : string) :
  truthy target = false ->
  r_target (resolve href external target rel) = Some t ->
  isExternal external href = true.
Proof.
  intros Ht. unfold resolve, finalTarget; simpl.
  rewrite or_str_falsy by assumption.
  destruct (isExternal external href); simpl; congruence.
Qed.


(** C7, as the code has it. A supplied target that is not the empty
    string is the resolved target, whatever the external detection says;
    an empty-string target counts as absent. *)
Theorem explicit_target_wins
    (href : string) (external : option bool) (t : string) (rel : option string) :
  t <> "" ->
  r_target (resolve href external (Some t) rel) = Some t
  /\ r_target (resolve href external (Some "") rel)
     = r_target (resolve href external None rel).
Proof.
  intros Ht. unfold resolve, finalTarget; simpl. split; [|reflexivity].
  apply or_str_truthy. simpl. apply truthy_str_true, Ht.
Qed.

Lemma explicit_target_wins_witness :
  "_self" <> ""
  /\ r_target (resolve "https://a.com" (Some true) (Some "_self") None)
     = Some "_self".
Proof.
  split; [discriminate|].
  apply (explicit_target_wins "https://a.com" (Some true) "_self" None).
  discriminate.
Defined.

(** C7 fails as stated: the explicit target "" on an external href is
    replaced by the derived "_blank". *)
Lemma empty_target_is_overridden :
  r_target (resolve "https://a.com" None (Some "") None) = Some "_blank"
  /\ r_target (resolve "https://a.com" None (Some "") None) <> Some "".
Proof. split; [reflexivity | discriminate]. Qed.

End LinkFacts.

(** ** Element polymorphism and the loading state of [Button] *)

Section ButtonFacts.
Import Cva React Btn.

Lemma Button_truthy_href (p : ButtonProps) (h : string) :
  href p = Some h -> h <> "" ->
  Button p = ElA h (target p) (rel p) (classes p) (onClick p) (content p).
Proof.
  intros Hh Hne. unfold Button. rewrite Hh.
  apply truthy_str_true in Hne. rewrite Hne. reflexivity.
Qed.

Lemma Button_falsy_href (p : ButtonProps) :
  truthy (href p) = false ->
  Button p = ElButton (classes p) (ref p) (isDisabled (disabled p) (loading p))
                      (onClick p) (content p).
Proof.
  unfold Button, truthy. destruct (href p) as [h|]; [|reflexivity].
  intros ->. reflexivity.
Qed.

(** C4. [Button] renders the anchor, carrying href, target and rel,
    exactly when its href is present (truthy), and the button with its
    click handle otherwise; the choice agrees with [Comp] of line 68 and
    two configurations that agree on the presence of href get the same
    element kind, whatever their other fields. *)
Theorem element_kind_by_href (p : ButtonProps) :
  (kind_of (Button p) = Navigable <-> truthy (href p) = true)
  /\ (kind_of (Button p) = Actionable <-> truthy (href p) = false)
  /\ kind_of (Button p) = kind_of_tag (Comp (href p))
  /\ (truthy (href p) = true ->
      exists h, href p = Some h /\
        Button p = ElA h (target p) (rel p) (classes p) (onClick p) (content p))
  /\ (truthy (href p) = false ->
      exists d, Button p = ElButton (classes p) (ref p) d (onClick p) (content p))
  /\ (forall q : ButtonProps,
        truthy (href q) = truthy (href p) ->
        kind_of (Button q) = kind_of (Button p)).
Proof.
  assert (Hk : forall r : ButtonProps,
             kind_of (Button r) = kind_of_tag (Comp (href r))).
  { intros r. unfold Button, Comp, truthy.
    destruct (href r) as [h|]; [destruct (truthy_str h)|]; reflexivity. }
  repeat split.
  - rewrite Hk. unfold Comp. destruct (truthy (href p)); simpl; congruence.
  - intros H. rewrite Hk. unfold Comp. rewrite H. reflexivity.
  - rewrite Hk. unfold Comp. destruct (truthy (href p)); simpl; congruence.
  - intros H. rewrite Hk. unfold Comp. rewrite H. reflexivity.
  - apply Hk.
  - intros H. unfold truthy in H. destruct (href p) as [h|] eqn:Hh; [|discriminate].
    exists h. split; [reflexivity|].
    apply Button_truthy_href; [assumption | apply truthy_str_true, H].
  - intros H. eexists. apply Button_falsy_href, H.
  - intros q Hq. rewrite !Hk. unfold Comp. rewrite Hq. reflexivity.
Qed.

Lemma element_kind_by_href_witness :
  kind_of (Button (Samples.saveButton (Some "/docs") None)) = Navigable
  /\ kind_of (Button (Samples.saveButton None None)) = Actionable.
Proof.
  split.
  - apply (proj1 (element_kind_by_href (Samples.saveButton (Some "/docs") None))).
    reflexivity.
  - apply (proj1 (proj2 (element_kind_by_href (Samples.saveButton None None)))).
    reflexivity.
Defined.

(** C10. An empty-string href renders the button, not the anchor: the
    empty address counts as no address. *)
Theorem empty_href_is_actionable (p : ButtonProps) :
  href p = Some "" ->
  kind_of (Button p) = Actionable
  /\ Button p = ElButton (classes p) (ref p) (isDisabled (disabled p) (loading p))
                         (onClick p) (content p).
Proof.
  intros H. assert (Hb := Button_falsy_href p). rewrite H in Hb.
  rewrite Hb by reflexivity. split; reflexivity.
Qed.

Lemma empty_href_is_actionable_witness :
  Btn.href (Samples.saveButton (Some "") None) = Some ""
  /\ kind_of (Button (Samples.saveButton (Some "") None)) = Actionable.
Proof.
  split; [reflexivity|].
  apply (empty_href_is_actionable (Samples.saveButton (Some "") None)).
  reflexivity.
Defined.

(** C5, as the code has it. With [loading] true, an Actionable element is
    rendered disabled whether or not the caller set [disabled]; the
    spinner is shown before the label and the icon is hidden; the label is
    the loading text when a non-empty one was supplied and stays the
    children otherwise. *)
Theorem loading_disables_button (p : ButtonProps) :
  loading p = Some true ->
  (truthy (href p) = false ->
   kind_of (Button p) = Actionable /\ disabled_of (Button p) = true)
  /\ visible (content_of (Button p)) = [ RSpinner; RSpan (loadingLabel p) ].
Proof.
  intros Hl. split.
  - intros Hh. rewrite (Button_falsy_href p Hh). simpl.
    unfold isDisabled. rewrite Hl. simpl. split; [reflexivity|].
    apply orb_true_r.
  - assert (Hc : content_of (Button p) = content p).
    { unfold Button. destruct (href p) as [h|]; [destruct (truthy_str h)|];
        reflexivity. }
    rewrite Hc. unfold content, loadingLabel, iconSlot. rewrite Hl. simpl.
    destruct (loadingText p) as [t|]; simpl; [|reflexivity].
    destruct (truthy_str t); reflexivity.
Qed.

Lemma loading_disables_button_witness :
  Btn.loading (Samples.saveButton None (Some true)) = Some true
  /\ disabled_of (Button (Samples.saveButton None (Some true))) = true
  /\ visible (content_of (Button (Samples.saveButton None (Some true))))
     = [ RSpinner; RSpan (RText "Save") ].
Proof.
  split; [reflexivity|].
  destruct (loading_disables_button (Samples.saveButton None (Some true))
              eq_refl) as [Hd Hv].
  split; [apply Hd; reflexivity | exact Hv].
Defined.

(** C5 fails as stated: a loading [Button] with href "/docs" is an anchor
    without a disabled attribute, and its label "Save" is still shown,
    after the spinner. *)
Lemma loading_link_stays_active :
  Btn.loading (Samples.saveButton (Some "/docs") (Some true)) = Some true
  /\ kind_of (Button (Samples.saveButton (Some "/docs") (Some true))) = Navigable
  /\ disabled_of (Button (Samples.saveButton (Some "/docs") (Some true))) = false
  /\ visible (content_of (Button (Samples.saveButton (Some "/docs") (Some true))))
     = [ RSpinner; RSpan (RText "Save") ].
Proof. repeat split. Qed.

End ButtonFacts.

(** ** Defaults of [buttonVariants] *)

Section VariantFacts.
Import Cva ButtonStyles.

Lemma buttonVariants_unfold (variant size width : PropValue) (c : option string) :
  buttonVariants variant size width c
  = clsx [ CVString (base buttonConfig);
           CVArray [ dimensionClass variantTable "primary" variant;
                     dimensionClass sizeTable "default" size;
                     dimensionClass widthTable "auto" width ];
           CVUndefined; CVUndefined; of_option c ].
Proof. destruct variant, size, width; reflexivity. Qed.


(** An omitted dimension and its default, named, read the same entry. *)
Lemma dimensionClass_omitted (table : gmap string string) (dflt : string) :
  dimensionClass table dflt PUndefined = of_lookup (get table dflt).
Proof. reflexivity. Qed.

Lemma dimensionClass_named (table : gmap string string) (dflt v : string) :
  v <> "" ->
  dimensionClass table dflt (PString v) = of_lookup (get table v).
Proof.
  intros Hv. unfold dimensionClass, variantKey.
  rewrite or_str_truthy by (simpl; apply truthy_str_true, Hv). reflexivity.
Qed.




(** The class string of a button left at its defaults. *)
Example buttonVariants_defaults :
  buttonVariants PUndefined PUndefined PUndefined None
  = "inline-flex items-center justify-center gap-2 rounded-full border border-solid transition-colors font-medium focus-visible:outline-none focus-visible:ring-2 focus-visible:ring-ring focus-visible:ring-offset-2 disabled:pointer-events-none disabled:opacity-50 bg-foreground text-background border-transparent hover:bg-[#383838] dark:hover:bg-[#ccc] h-10 px-4 text-sm sm:h-12 sm:px-5 sm:text-base w-auto".
Proof. reflexivity. Qed.

(** C8. Leaving a dimension out resolves to the same class string as
    naming its declared default: "primary" for variant, "default" for
    size, "auto" for width. *)
Theorem omitted_dimension_is_default
    (variant size width : PropValue) (className : option string) :
  buttonVariants PUndefined size width className
  = buttonVariants (PString "primary") size width className
  /\ buttonVariants variant PUndefined width className
     = buttonVariants variant (PString "default") width className
  /\ buttonVariants variant size PUndefined className
     = buttonVariants variant size (PString "auto") className.
Proof.
  rewrite !buttonVariants_unfold, !dimensionClass_omitted.
  rewrite !dimensionClass_named by discriminate.
  repeat split; reflexivity.
Qed.

End VariantFacts.

(** ** Responsive rules of [ActionButtons] and icons of [ActionButton] *)

Section ActionFacts.
Import React Action.

Lemma contributed_cons (k : string) (b : bool) (rules : list (string * bool)) :
  contributed ((k, b) :: rules)
  = if b then k :: contributed rules else contributed rules.
Proof. unfold contributed. destruct b; reflexivity. Qed.

(** A fragment is contributed exactly when its rule holds. *)
Lemma elem_of_contributed (k : string) (rules : list (string * bool)) :
  k ∈ contributed rules <-> (k, true) ∈ rules.
Proof.
  unfold contributed. rewrite list_elem_of_fmap. split.
  - intros [[k' b] [-> H]]. apply list_elem_of_filter in H as [Hb Hin].
    simpl in *. subst b. exact Hin.
  - intros H. exists (k, true). split; [reflexivity|].
    apply list_elem_of_filter. split; [reflexivity | exact H].
Qed.

(** From [(k, true) ∈ rules] for a literal rule list, find the rule named
    [k] and read off its condition. *)
Ltac pick_rule H :=
  apply elem_of_cons in H; destruct H as [H | H];
  [ try discriminate H
  | first [ apply elem_of_nil in H; contradiction | pick_rule H ] ].

(** Turn the boolean condition of the rule found into propositions. *)
Ltac read_rule H :=
  injection H as H; symmetry in H;
  repeat (apply andb_true_iff in H; destruct H as [? H]);
  repeat match goal with
         | Hb : bool_decide _ = true |- _ => apply bool_decide_eq_true in Hb
         end.

(** Conversely, point at the rule that holds. *)
Ltac find_rule :=
  repeat (first [ apply list_elem_of_here | apply list_elem_of_further ]).

(** What [clsx] appends for the rule object is the contributed fragments,
    joined by single spaces. *)
Lemma containerRules_toVal (direction width : string) (mobile : option string) :
  toVal (CVDict (containerRules direction width mobile))
  = String.concat " " (contributed (containerRules direction width mobile)).
Proof.
  unfold containerRules. rewrite !contributed_cons.
  repeat case_bool_decide; reflexivity.
Qed.

Lemma contributed_stack (direction width : string) (mobile : option string) :
  stackFragment ∈ contributed (containerRules direction width mobile)
  <-> mobile = Some "stack" /\ direction = "horizontal".
Proof.
  rewrite elem_of_contributed. unfold containerRules, stackFragment. split.
  - intros H. pick_rule H. read_rule H. split; assumption.
  - intros [-> ->]. find_rule.
Qed.

Lemma contributed_wrap (direction width : string) (mobile : option string) :
  wrapFragment ∈ contributed (containerRules direction width mobile)
  <-> mobile = Some "wrap".
Proof.
  rewrite elem_of_contributed. unfold containerRules, wrapFragment. split.
  - intros H. pick_rule H. read_rule H. assumption.
  - intros ->. find_rule.
Qed.

Lemma contributed_scroll (direction width : string) (mobile : option string) :
  scrollFragment ∈ contributed (containerRules direction width mobile)
  <-> mobile = Some "scroll".
Proof.
  rewrite elem_of_contributed. unfold containerRules, scrollFragment. split.
  - intros H. pick_rule H. read_rule H. assumption.
  - intros ->. find_rule.
Qed.



Lemma contributed_keys (frag : string) (rules : list (string * bool)) :
  frag ∈ contributed rules -> frag ∈ map fst rules.
Proof.
  rewrite elem_of_contributed. intros H.
  apply list_elem_of_fmap. exists (frag, true). split; [reflexivity | exact H].
Qed.

(** A token that only one rule key carries is in the class string of the
    rule object exactly when that key is contributed. *)
Lemma rule_token (t frag d w : string) (m : option string) :
  Forall (fun key => t ∈ tokens key -> key = frag) (map fst (containerRules d w m)) ->
  t ∈ tokens frag ->
  t ∈ class_tokens (CVDict (containerRules d w m))
  <-> frag ∈ contributed (containerRules d w m).
Proof.
  intros Hkeys Ht. unfold class_tokens. cbn [truthy_cv].
  rewrite containerRules_toVal, tokens_concat, elem_of_concat_map. split.
  - intros (key & Hkey & Hin).
    rewrite Forall_forall in Hkeys.
    rewrite <- (Hkeys key); [assumption | | assumption].
    apply contributed_keys, Hkey.
  - intros Hfrag. exists frag. split; assumption.
Qed.

Ltac by_computation := apply (bool_decide_unpack _); vm_compute; exact I.

(** A token carried by one rule key only, and by no fixed or looked-up
    fragment, is in the composed class string exactly when that rule is
    contributed or the caller's own classes bring it. *)
Lemma container_token (p : ActionButtonsProps) (t frag : string) :
  t ∉ tokens "flex" ->
  map_Forall (fun _ v => t ∉ tokens v) gapClasses ->
  map_Forall (fun _ v => t ∉ tokens v) alignClasses ->
  Forall (fun key => t ∈ tokens key -> key = frag) ruleKeys ->
  t ∈ tokens frag ->
  t ∈ tokens (containerClasses p)
  <-> frag ∈ contributed
        (containerRules (default "horizontal" (direction p))
                        (default "auto" (container_width p))
                        (mobile (default defaultResponsive (responsive p))))
      \/ t ∈ class_tokens (of_option (container_className p)).
Proof.
  intros Hflex Hgap Halign Hkeys Ht. unfold containerClasses.
  rewrite tokens_cn, elem_of_dedupe_last.
  cbn [map concat]. rewrite !elem_of_app.
  rewrite (rule_token t frag) by assumption.
  pose proof (table_avoids t gapClasses (default "md" (gap p)) Hgap) as Hg.
  pose proof (table_avoids t alignClasses (default "center" (align p)) Halign)
    as Ha.
  pose proof (not_elem_of_nil t) as Hnil.
  change (class_tokens (CVString "flex")) with (tokens "flex").
  tauto.
Qed.

(** On the composed class string: the token only the stack fragment
    carries is present exactly when the stack rule holds or the caller's
    own classes bring it, and likewise for wrap and scroll. *)
Lemma responsive_tokens (p : ActionButtonsProps) :
  let d := default "horizontal" (direction p) in
  let m := mobile (default defaultResponsive (responsive p)) in
  let own t := t ∈ class_tokens (of_option (container_className p)) in
  ("sm:flex-row" ∈ tokens (containerClasses p)
   <-> (m = Some "stack" /\ d = "horizontal") \/ own "sm:flex-row")
  /\ ("flex-wrap" ∈ tokens (containerClasses p)
      <-> m = Some "wrap" \/ own "flex-wrap")
  /\ ("overflow-x-auto" ∈ tokens (containerClasses p)
      <-> m = Some "scroll" \/ own "overflow-x-auto").
Proof.
  intros d m own. subst d m own. cbv beta.
  rewrite <- (contributed_stack _ (default "auto" (container_width p))),
    <- (contributed_wrap (default "horizontal" (direction p))
                         (default "auto" (container_width p))),
    <- (contributed_scroll (default "horizontal" (direction p))
                           (default "auto" (container_width p))).
  repeat split; apply container_token; by_computation.
Qed.

(** The anchor an [ActionButton] renders carries the resolved link
    attributes of lines 134-138. *)
Lemma ActionButton_link_attributes
    (c : ActionButtonConfig) (ref : option Handle) (h : string) :
  href c = Some h -> h <> "" ->
  exists cls content,
    ActionButton c ref
    = Ok (ElA h
              (Link.r_target (Link.resolve h (external c) (target c) (rel c)))
              (Link.r_rel (Link.resolve h (external c) (target c) (rel c)))
              cls (onClick c) content).
Proof.
  intros Hh Hne. unfold ActionButton. rewrite Hh.
  rewrite (Button_truthy_href (buttonProps c h ref) h eq_refl Hne). simpl.
  eauto.
Qed.

(** C9, as the code has it. Rendering an [ActionButton] with a defined
    href never fails on account of its icon. A declared icon becomes one
    image that carries the descriptor's [src] and [alt] unchanged, present
    or not, with width and height defaulting to 20, placed after the label
    when its position is "right" and before it otherwise; without an icon
    the label stands alone. *)
Theorem icon_passes_through
    (c : ActionButtonConfig) (ref : option Handle) (h : string) :
  href c = Some h ->
  ActionButton c ref = Ok (Btn.Button (buttonProps c h ref))
  /\ Btn.children (buttonProps c h ref) = buttonContent c
  /\ (forall i : IconConfig, icon c = Some i ->
      let image :=
        RImage (icon_src i) (icon_alt i)
               (or_num (icon_width i) 20) (or_num (icon_height i) 20)
               (cn [ CVString "flex-shrink-0"; of_option (icon_className i) ]) in
      visible (buttonContent c)
      = if bool_decide (icon_position i = Some "right")
        then [ RSpan (RText (label c)); image ]
        else [ image; RSpan (RText (label c)) ])
  /\ (icon c = None -> visible (buttonContent c) = [ RSpan (RText (label c)) ]).
Proof.
  intros Hh. unfold ActionButton. rewrite Hh.
  split; [reflexivity|]. split; [reflexivity|]. split.
  - intros i Hi. unfold buttonContent, leftIcon, rightIcon. rewrite Hi.
    simpl. case_bool_decide; reflexivity.
  - intros Hi. unfold buttonContent, leftIcon, rightIcon. rewrite Hi.
    reflexivity.
Qed.

Lemma icon_passes_through_witness :
  href (ActionSamples.docsButton (Some ActionSamples.blankIcon)) = Some "/docs"
  /\ is_ok (ActionButton (ActionSamples.docsButton (Some ActionSamples.blankIcon))
                         None) = true.
Proof.
  split; [reflexivity|].
  destruct (icon_passes_through
              (ActionSamples.docsButton (Some ActionSamples.blankIcon))
              None "/docs" eq_refl) as [H _].
  rewrite H. reflexivity.
Defined.

(** C9 fails as stated: an icon with neither [src] nor [alt] is rendered
    without any error, as an image whose [src] and [alt] are undefined. *)
Lemma blank_icon_is_rendered :
  icon_src ActionSamples.blankIcon = None
  /\ icon_alt ActionSamples.blankIcon = None
  /\ is_ok (ActionButton (ActionSamples.docsButton (Some ActionSamples.blankIcon))
                         None) = true
  /\ visible (buttonContent (ActionSamples.docsButton (Some ActionSamples.blankIcon)))
     = [ RImage None None 20 20 "flex-shrink-0"; RSpan (RText "Docs") ].
Proof. repeat split. Qed.

End ActionFacts.

(** ** Unknown configuration values *)

Section UnknownValues.
Import Cva ButtonStyles Layout LayoutSamples.





End UnknownValues.

(** ** Rendering a set of action buttons *)

Section ButtonSetFacts.
Import React Action Presets.









(** X3. Left to its defaults (no target, no rel), an [ActionButton] on a
    non-empty href renders an anchor whose target and rel are set
    together: "_blank" with "noopener noreferrer" when the link is
    detected as external, and neither otherwise. *)
Theorem ActionButton_derived_attributes
    (c : ActionButtonConfig) (ref : option Handle) (h : string) :
  href c = Some h -> h <> "" ->
  truthy (target c) = false -> truthy (rel c) = false ->
  exists cls content,
    ActionButton c ref
    = Ok (if Link.isExternal (external c) h
          then ElA h (Some "_blank") (Some "noopener noreferrer")
                   cls (onClick c) content
          else ElA h None None cls (onClick c) content).
Proof.
  intros Hh Hne Ht Hr.
  destruct (ActionButton_link_attributes c ref h Hh Hne) as (cls & content & H).
  exists cls, content. rewrite H. unfold Link.resolve, Link.finalTarget, Link.finalRel.
  simpl. rewrite !or_str_falsy by assumption.
  destruct (Link.isExternal (external c) h); reflexivity.
Qed.

Lemma ActionButton_derived_attributes_witness :
  exists cls content,
    ActionButton (ActionSamples.docsButton None) None
    = Ok (ElA "/docs" None None cls None content).
Proof.
  exact (ActionButton_derived_attributes (ActionSamples.docsButton None) None
           "/docs" eq_refl ltac:(discriminate) eq_refl eq_refl).
Defined.

End ButtonSetFacts.

(** ** The pre-built button sets *)

Section PresetFacts.
Import React Action Presets.
Local Open Scope list_scope.







(** X6. [CTAButtons] and [AuthButtons] never throw, whatever is passed or
    left out: their defaults give every button an href. [CTAButtons]
    renders two elements; [AuthButtons] renders the login element unless
    [showLogin] is false and the signup element unless [showSignup] is
    false. *)
Theorem CTA_and_Auth_always_render
    (a b c d className : option string) (showLogin showSignup : option bool) :
  (exists cls e1 e2, CTAButtons a b c d className = Ok (cls, [e1; e2]))
  /\ (exists cls es,
        AuthButtons showLogin showSignup a b className = Ok (cls, es)
        /\ length es
           = ((if default true showLogin then 1 else 0)
              + (if default true showSignup then 1 else 0))%nat).
Proof.
  split.
  - unfold CTAButtons, ActionButtons. simpl. eexists _, _, _. reflexivity.
  - unfold AuthButtons, ActionButtons, authConfigs. simpl.
    destruct (default true showLogin), (default true showSignup); simpl;
      eexists _, _; split; reflexivity.
Qed.

End PresetFacts.

(** ** The logo *)

Section LogoFacts.
Import React LogoUi.

(** Spreading over a prop that the base leaves out keeps the caller's. *)
Lemma over_prop_absent {A} (over : passed A) : over_prop Absent over = over.
Proof. destruct over; reflexivity. Qed.

Lemma finalDimension_given (given : option Z) (dims : lookup_result Dimensions)
    (field : Dimensions -> option Z) (name : string) :
  has_number given = true -> finalDimension given dims field name = Ok given.
Proof.
  unfold has_number, finalDimension. destruct given as [v|]; [|discriminate].
  destruct (Z.eqb v 0); [discriminate | reflexivity].
Qed.

Lemma finalDimension_fallback (given : option Z) (dims : lookup_result Dimensions)
    (field : Dimensions -> option Z) (name : string) :
  has_number given = false ->
  finalDimension given dims field name = finalDimension None dims field name.
Proof.
  unfold has_number, finalDimension. destruct given as [v|]; [|reflexivity].
  destruct (Z.eqb v 0); [reflexivity | discriminate].
Qed.

Lemma finalDimension_ok_iff (given : option Z) (dims : lookup_result Dimensions)
    (field : Dimensions -> option Z) (name : string) :
  is_ok (finalDimension given dims field name) = false
  <-> has_number given = false /\ dims = Undefined.
Proof.
  destruct (has_number given) eqn:Hg.
  - rewrite finalDimension_given by assumption. simpl. intuition discriminate.
  - rewrite finalDimension_fallback by assumption.
    destruct dims; simpl; intuition discriminate.
Qed.

Lemma Logo_ok_iff_dimensions (p : LogoProps) :
  is_ok (Logo p) = false
  <-> is_ok (finalDimension (value (width p))
               (dimensions (default "lg" (value (size p)))
                           (value (width p)) (value (height p)))
               dim_width "width") = false
      \/ is_ok (finalDimension (value (height p))
                  (dimensions (default "lg" (value (size p)))
                              (value (width p)) (value (height p)))
                  dim_height "height") = false.
Proof.
  unfold Logo.
  destruct (finalDimension (value (width p)) _ dim_width "width"); simpl;
    [|intuition].
  destruct (finalDimension (value (height p)) _ dim_height "height"); simpl;
    intuition discriminate.
Qed.

Lemma dimensions_undefined (size : string) (width height : option Z) :
  dimensions size width height = Undefined
  <-> size <> "custom" /\ unknown_key sizeConfig size.
Proof.
  unfold dimensions, unknown_key. case_bool_decide as Hc.
  - split; [discriminate | intros [H _]; contradiction].
  - intuition.
Qed.

Lemma Logo_fails_iff (p : LogoProps) :
  is_ok (Logo p) = false
  <-> default "lg" (value (size p)) <> "custom"
      /\ unknown_key sizeConfig (default "lg" (value (size p)))
      /\ (has_number (value (width p)) = false
          \/ has_number (value (height p)) = false).
Proof.
  rewrite Logo_ok_iff_dimensions, !finalDimension_ok_iff, !dimensions_undefined.
  tauto.
Qed.

(** X7. [Logo] throws exactly when its size is neither "custom" nor a
    key that [sizeConfig] resolves, and the width or the height is missing
    or zero; with both dimensions given it renders on any size. *)
Theorem Logo_throws_iff (p : LogoProps) :
  is_ok (Logo p) = false
  <-> default "lg" (value (size p)) <> "custom"
      /\ unknown_key sizeConfig (default "lg" (value (size p)))
      /\ (has_number (value (width p)) = false
          \/ has_number (value (height p)) = false).
Proof.
  rewrite Logo_ok_iff_dimensions, !finalDimension_ok_iff, !dimensions_undefined.
  tauto.
Qed.

Lemma Logo_throws_iff_witness :
  is_ok (Logo {| src := Absent; alt := Absent; width := Given (Some 64%Z);
                 height := Absent; invertOnDark := Absent; linkToHome := Absent;
                 href := Absent; size := Given (Some "huge");
                 className := Absent; priority := Absent; loading := Absent;
                 onClick := Absent |}) = false.
Proof.
  apply (proj2 (Logo_throws_iff _)). simpl.
  split; [discriminate|]. split; [reflexivity|]. right. reflexivity.
Defined.

Lemma Logo_image (p : LogoProps) (e : LogoElement) :
  Logo p = Ok e ->
  let dims := dimensions (default "lg" (value (size p)))
                         (value (width p)) (value (height p)) in
  finalDimension (value (width p)) dims dim_width "width"
  = Ok (img_width (image_of e))
  /\ finalDimension (value (height p)) dims dim_height "height"
     = Ok (img_height (image_of e)).
Proof.
  unfold Logo. cbv zeta.
  destruct (finalDimension (value (width p)) _ dim_width "width") as [w|];
    simpl; [|discriminate].
  destruct (finalDimension (value (height p)) _ dim_height "height") as [h|];
    simpl; [|discriminate].
  intros H. injection H as <-.
  destruct (_ || _); simpl; split; reflexivity.
Qed.

(** X8. The size of the rendered logo image: a non-zero width or height
    that was given is used whatever the size; size "custom" falls back to
    180 by 38; any other size falls back to the dimensions of its preset. *)
Theorem Logo_dimension_rule (p : LogoProps) (e : LogoElement) :
  Logo p = Ok e ->
  let size := default "lg" (value (size p)) in
  (has_number (value (width p)) = true ->
   img_width (image_of e) = value (width p))
  /\ (has_number (value (height p)) = true ->
      img_height (image_of e) = value (height p))
  /\ (size = "custom" ->
      img_width (image_of e) = Some (or_num (value (width p)) 180)
      /\ img_height (image_of e) = Some (or_num (value (height p)) 38))
  /\ (forall d : Dimensions,
        size <> "custom" -> sizeConfig !! size = Some d ->
        (has_number (value (width p)) = false ->
         img_width (image_of e) = dim_width d)
        /\ (has_number (value (height p)) = false ->
            img_height (image_of e) = dim_height d)).
Proof.
  intros He size. destruct (Logo_image p e He) as [Hw Hh]. fold size in Hw, Hh.
  split; [|split; [|split]].
  - intros Hg. rewrite finalDimension_given in Hw by assumption. congruence.
  - intros Hg. rewrite finalDimension_given in Hh by assumption. congruence.
  - intros Hc. unfold dimensions in Hw, Hh. rewrite Hc in Hw, Hh.
    simpl in Hw, Hh. split.
    + destruct (value (width p)) as [v|]; simpl in *; [|congruence].
      destruct (Z.eqb v 0) eqn:Hv; simpl in *; congruence.
    + destruct (value (height p)) as [v|]; simpl in *; [|congruence].
      destruct (Z.eqb v 0) eqn:Hv; simpl in *; congruence.
  - intros d Hc Hd. unfold dimensions, get in Hw, Hh.
    rewrite bool_decide_eq_false_2, Hd in Hw, Hh by assumption. split; intros Hg.
    + rewrite finalDimension_fallback in Hw by assumption. simpl in Hw. congruence.
    + rewrite finalDimension_fallback in Hh by assumption. simpl in Hh. congruence.
Qed.

Lemma Logo_dimension_rule_witness :
  exists e : LogoElement,
    Logo {| src := Absent; alt := Absent; width := Absent; height := Absent;
            invertOnDark := Absent; linkToHome := Absent; href := Absent;
            size := Given (Some "custom"); className := Absent;
            priority := Absent; loading := Absent; onClick := Absent |} = Ok e
    /\ img_width (image_of e) = Some 180%Z
    /\ img_height (image_of e) = Some 38%Z.
Proof.
  match goal with |- context [Logo ?q] => set (p := q) end.
  destruct (Logo p) as [e|err] eqn:He; [|vm_compute in He; discriminate He].
  exists e. split; [reflexivity|].
  apply (Logo_dimension_rule p e He). reflexivity.
Defined.

(** X9. [VercelLogo] renders a 20 by 20 image whatever size it is given,
    known or not, as long as the caller passes neither width nor height. *)
Theorem VercelLogo_fixed_size (props : LogoProps) :
  width props = Absent -> height props = Absent ->
  exists e : LogoElement,
    VercelLogo props = Ok e
    /\ img_width (image_of e) = Some 20%Z
    /\ img_height (image_of e) = Some 20%Z.
Proof.
  intros Hw Hh. unfold VercelLogo, Logo, spread. simpl. rewrite Hw, Hh. simpl.
  eexists. split; [reflexivity|].
  destruct (_ || _); split; reflexivity.
Qed.

Lemma VercelLogo_fixed_size_witness :
  exists e : LogoElement,
    VercelLogo {| src := Absent; alt := Absent; width := Absent;
                  height := Absent; invertOnDark := Absent;
                  linkToHome := Absent; href := Absent;
                  size := Given (Some "huge"); className := Absent;
                  priority := Absent; loading := Absent; onClick := Absent |}
    = Ok e
    /\ img_width (image_of e) = Some 20%Z
    /\ img_height (image_of e) = Some 20%Z.
Proof. apply VercelLogo_fixed_size; reflexivity. Defined.

(** X10. A [BrandLogo] that renders is wrapped in a link unless the
    caller passes its own falsy [linkToHome] (an explicit [undefined]
    included) and leaves the href at "/". *)
Theorem BrandLogo_linked_iff (props : LogoProps) (e : LogoElement) :
  BrandLogo props = Ok e ->
  (is_linked e = true
   <-> linkToHome props = Absent
       \/ value (linkToHome props) = Some true
       \/ default "/" (value (href props)) <> "/").
Proof.
  unfold BrandLogo, Logo, spread. simpl. rewrite !over_prop_absent.
  destruct (finalDimension _ _ dim_width "width"); simpl; [|discriminate].
  destruct (finalDimension _ _ dim_height "height"); simpl; [|discriminate].
  intros H. injection H as <-.
  destruct (linkToHome props) as [|[[|]|]]; simpl;
    try case_bool_decide; simpl; intuition (try discriminate; try congruence).
Qed.

Lemma BrandLogo_linked_iff_witness :
  exists e : LogoElement,
    BrandLogo {| src := Absent; alt := Absent; width := Absent;
                 height := Absent; invertOnDark := Absent;
                 linkToHome := Given None; href := Absent;
                 size := Absent; className := Absent;
                 priority := Absent; loading := Absent; onClick := Absent |}
    = Ok e
    /\ is_linked e = false.
Proof.
  match goal with |- context [BrandLogo ?q] => set (p := q) end.
  destruct (BrandLogo p) as [e|err] eqn:He; [|vm_compute in He; discriminate He].
  exists e. split; [reflexivity|].
  apply not_true_is_false. intros Hl.
  apply (proj1 (BrandLogo_linked_iff p e He)) in Hl.
  destruct Hl as [H|[H|H]]; [discriminate H | discriminate H | apply H; reflexivity].
Defined.

End LogoFacts.

(** ** Links of the header and the footer *)

Section LinkElementFacts.
Import React Dom.

(** X11. The navigation links, the mobile menu links and the footer
    links open a new context, with "noopener noreferrer", exactly when
    their [external] flag is true: unlike [ActionButton], they never look
    at the address, so an "http" address without the flag gets neither
    attribute. *)
Theorem flagged_links_only :
  (forall item : HeaderUi.NavigationItem,
      let a := attrs_of (HeaderUi.NavLink item) in
      (attr "target" a, attr "rel" a)
      = if default false (HeaderUi.external item)
        then (Some (AString "_blank"), Some (AString "noopener noreferrer"))
        else (None, None))
  /\ (forall (onClose : AttrValue) (item : HeaderUi.NavigationItem),
        let a := attrs_of (HeaderUi.mobileLink onClose item) in
        (attr "target" a, attr "rel" a)
        = if default false (HeaderUi.external item)
          then (Some (AString "_blank"), Some (AString "noopener noreferrer"))
          else (None, None))
  /\ (forall (link : FooterUi.FooterLink) (variant : option string),
        let a := attrs_of (FooterUi.FooterLinkEl link variant) in
        (attr "target" a, attr "rel" a)
        = if default false (FooterUi.external link)
          then (Some (AString "_blank"), Some (AString "noopener noreferrer"))
          else (None, None))
  /\ (forall item : HeaderUi.NavigationItem,
        has_prefix "http" (HeaderUi.href item) ->
        HeaderUi.external item = None ->
        attr "target" (attrs_of (HeaderUi.NavLink item)) = None
        /\ Link.r_target (Link.resolve (HeaderUi.href item) None None None)
           = Some "_blank").
Proof.
  split; [|split; [|split]].
  - intros [l h a [[|]|] i]; reflexivity.
  - intros onClose [l h a [[|]|] i]; reflexivity.
  - intros [l h i [[|]|] ah] v; reflexivity.
  - intros [l h a e i] Hp He. simpl in *. subst e. split; [reflexivity|].
    unfold Link.resolve, Link.finalTarget, Link.isExternal. simpl.
    apply startsWith_has_prefix in Hp. rewrite Hp. reflexivity.
Qed.

Lemma flagged_links_only_witness :
  attr "target"
       (attrs_of (HeaderUi.NavLink
                    {| HeaderUi.label := "Docs";
                       HeaderUi.href := "https://example.org/docs";
                       HeaderUi.active := None; HeaderUi.external := None;
                       HeaderUi.icon := GUndefined |})) = None
  /\ Link.r_target (Link.resolve "https://example.org/docs" None None None)
     = Some "_blank".
Proof.
  apply (proj2 (proj2 (proj2 flagged_links_only))
           {| HeaderUi.label := "Docs";
              HeaderUi.href := "https://example.org/docs";
              HeaderUi.active := None; HeaderUi.external := None;
              HeaderUi.icon := GUndefined |}).
  - exists "s://example.org/docs". reflexivity.
  - reflexivity.
Defined.

End LinkElementFacts.

(** ** The header *)

Section HeaderFacts.
Import React Dom HeaderUi.
Local Open Scope list_scope.

Lemma count_and_given (tag : string) (g : Given) (n : Node) :
  count_tag tag (and_given g n) = if truthy_given g then count_tag tag n else 0.
Proof. unfold and_given. destruct (truthy_given g); reflexivity. Qed.

Lemma count_and_bool (tag : string) (c : bool) (n : Node) :
  count_tag tag (and_bool c n) = if c then count_tag tag n else 0.
Proof. destruct c; reflexivity. Qed.

Lemma count_and_string (tag : string) (s : option string) (n : Node) :
  count_tag tag (and_string s n) = if truthy s then count_tag tag n else 0.
Proof. destruct s as [[|c s]|]; reflexivity. Qed.

Lemma list_sum_ones {A} (f : A -> nat) (l : list A) :
  (forall x, f x = 1) -> list_sum (map f l) = length l.
Proof.
  intros Hf. induction l as [|x l IH]; simpl; [reflexivity|].
  rewrite Hf, IH. reflexivity.
Qed.







Lemma logoSection_fails_iff (p : HeaderProps) :
  is_ok (logoSection p) = false
  <-> default true (showLogo p) = true
      /\ bad_logo_size (logo p ≫= logo_size).
Proof.
  unfold logoSection, bad_logo_size.
  destruct (default true (showLogo p)); simpl;
    [|split; [discriminate | intros [H _]; discriminate]].
  match goal with
  | |- context [LogoUi.BrandLogo ?q] =>
      assert (Hb : is_ok (LogoUi.BrandLogo q) = false
                   <-> is_ok (bind (LogoUi.BrandLogo q)
                                (fun brand =>
                                   Ok (NEl "div"
                                         [ ("className", AString "flex-shrink-0") ]
                                         [ NLogo brand ]))) = false)
        by (destruct (LogoUi.BrandLogo q); simpl; reflexivity);
      rewrite <- Hb; clear Hb
  end.
  unfold LogoUi.BrandLogo. rewrite Logo_fails_iff. simpl.
  destruct (logo p) as [l|]; simpl.
  - destruct (logo_size l) as [s|]; simpl.
    + unfold or_str. simpl. destruct (truthy_str s) eqn:Hs; simpl.
      * apply truthy_str_true in Hs. split.
        -- intros (Hc & Hu & _). split; [reflexivity|]. exists s. auto.
        -- intros (_ & s' & Hs' & Hne & Hc & Hu). injection Hs' as <-. auto.
      * apply truthy_str_false in Hs. subst s. split.
        -- intros (_ & Hu & _). discriminate Hu.
        -- intros (_ & s' & Hs' & Hne & _). injection Hs' as <-. congruence.
    + unfold or_str. simpl. split.
      * intros (_ & Hu & _). discriminate Hu.
      * intros (_ & s' & Hs' & _). discriminate.
  - unfold or_str. simpl. split.
    + intros (_ & Hu & _). discriminate Hu.
    + intros (_ & s' & Hs' & _). discriminate.
Qed.

(** X12. [Header] throws exactly when its logo is shown and the logo
    size is a non-empty string other than "custom" that the logo does not
    know; a hidden logo is never rendered, so its size cannot fail. *)
Theorem Header_throws_iff (p : HeaderProps) :
  is_ok (Header p) = false
  <-> default true (showLogo p) = true
      /\ bad_logo_size (logo p ≫= logo_size).
Proof.
  rewrite <- logoSection_fails_iff. unfold Header.
  destruct (logoSection p); simpl; reflexivity.
Qed.

Lemma Header_throws_iff_witness :
  is_ok (Header {| showLogo := None;
                   logo := Some {| logo_src := None; logo_alt := None;
                                   logo_size := Some "huge";
                                   logo_linkToHome := None |};
                   navigation := None; actions := GUndefined; sticky := None;
                   bordered := None; variant := None; className := None;
                   showMobileMenu := None; mobileMenuOpen := None;
                   onMobileMenuToggle := None |}) = false.
Proof.
  apply (proj2 (Header_throws_iff _)). split; [reflexivity|].
  exists "huge". split; [reflexivity|]. split; [discriminate|].
  split; [discriminate | reflexivity].
Defined.



End HeaderFacts.

(** ** The footer *)

Section FooterFacts.
Import React Dom FooterUi.
Local Open Scope list_scope.

Lemma effective_size_bad (size : option string) (fallback : string) :
  ~ unknown_key LogoUi.sizeConfig fallback ->
  (default "lg" (or_str size (Some fallback)) <> "custom"
   /\ unknown_key LogoUi.sizeConfig (default "lg" (or_str size (Some fallback))))
  <-> bad_logo_size size.
Proof.
  intros Hf. unfold bad_logo_size, or_str.
  destruct size as [s|]; simpl.
  - destruct (truthy_str s) eqn:Hs; simpl.
    + apply truthy_str_true in Hs. split.
      * intros [Hc Hu]. exists s. auto.
      * intros (s' & Hs' & _ & Hc & Hu). injection Hs' as <-. auto.
    + apply truthy_str_false in Hs. subst s. split.
      * intros [_ Hu]. contradiction.
      * intros (s' & Hs' & Hne & _). injection Hs' as <-. congruence.
  - split.
    + intros [_ Hu]. contradiction.
    + intros (s' & Hs' & _). discriminate.
Qed.

Lemma footerLogo_fails_iff (logo : option FooterLogo) (fallback : string)
    (className : LogoUi.passed string) :
  ~ unknown_key LogoUi.sizeConfig fallback ->
  is_ok (footerLogo logo fallback className) = false
  <-> bad_logo_size (logo ≫= logo_size).
Proof.
  intros Hf. unfold footerLogo. rewrite Logo_fails_iff. simpl.
  rewrite <- (effective_size_bad _ fallback Hf). tauto.
Qed.

Lemma logoBlock_fails_iff (showLogo : bool) (logo : option FooterLogo)
    (fallback : string) (className : LogoUi.passed string) (wrap : Node -> Node) :
  ~ unknown_key LogoUi.sizeConfig fallback ->
  is_ok (logoBlock showLogo logo fallback className wrap) = false
  <-> showLogo = true /\ bad_logo_size (logo ≫= logo_size).
Proof.
  intros Hf. rewrite <- (footerLogo_fails_iff logo fallback className Hf).
  unfold logoBlock. destruct showLogo; simpl.
  - destruct (footerLogo logo fallback className); simpl; intuition.
  - split; [discriminate | intros [H _]; discriminate].
Qed.

Lemma count_logoBlock (showLogo : bool) (logo : option FooterLogo)
    (fallback : string) (className : LogoUi.passed string)
    (wrap : Node -> Node) (n : Node) :
  (forall l, count_tag "a" (wrap (NLogo l)) = 0) ->
  logoBlock showLogo logo fallback className wrap = Ok n ->
  count_tag "a" n = 0.
Proof.
  intros Hw. unfold logoBlock. destruct showLogo.
  - destruct (footerLogo logo fallback className); simpl; [|discriminate].
    intros H. injection H as <-. apply Hw.
  - intros H. injection H as <-. reflexivity.
Qed.

Lemma count_FooterLinkEl (link : FooterLink) (variant : option string) :
  count_tag "a" (FooterLinkEl link variant) = 1.
Proof.
  unfold FooterLinkEl. cbn [count_tag map list_sum].
  rewrite count_and_given, count_and_bool.
  destruct (truthy_given (icon link)), (default false (external link));
    reflexivity.
Qed.

Lemma count_links (links : list FooterLink) (variant : option string) :
  list_sum (map (count_tag "a")
                (map (fun link => FooterLinkEl link variant) links))
  = length links.
Proof.
  rewrite map_map. apply list_sum_ones. intros link. apply count_FooterLinkEl.
Qed.

Lemma count_sectionBlock (section : FooterSection) :
  count_tag "a" (sectionBlock section) = length (section_links section).
Proof.
  unfold sectionBlock. cbn [count_tag map list_sum].
  rewrite count_and_string, !map_map.
  rewrite (list_sum_ones _ (section_links section)).
  - destruct (truthy (title section)); simpl; lia.
  - intros link. cbn [count_tag map list_sum].
    rewrite count_FooterLinkEl, bool_decide_eq_false_2 by discriminate.
    reflexivity.
Qed.

(** The links the three contents render. *)
Lemma count_Simple (links : list FooterLink) (showLogo : bool)
    (logo : option FooterLogo) (copyright : option string) (n : Node) :
  SimpleFooterContent links showLogo logo copyright = Ok n ->
  count_tag "a" n = length links.
Proof.
  unfold SimpleFooterContent.
  destruct (logoBlock showLogo logo "sm" LogoUi.Absent _) as [l|] eqn:Hl;
    simpl; [|discriminate].
  intros H. injection H as <-. cbn [count_tag map list_sum].
  assert (Hz : count_tag "a" l = 0)
    by ((eapply count_logoBlock; [|exact Hl]); intros; reflexivity).
  rewrite Hz.
  rewrite count_links, count_and_string.
  destruct (truthy copyright); simpl; lia.
Qed.

Lemma count_Minimal (links : list FooterLink) (showLogo : bool)
    (logo : option FooterLogo) (copyright : option string) (n : Node) :
  MinimalFooterContent links showLogo logo copyright = Ok n ->
  count_tag "a" n = length links.
Proof.
  unfold MinimalFooterContent.
  destruct (logoBlock showLogo logo "sm" LogoUi.Absent _) as [l|] eqn:Hl;
    simpl; [|discriminate].
  intros H. injection H as <-. cbn [count_tag map list_sum].
  assert (Hz : count_tag "a" l = 0)
    by ((eapply count_logoBlock; [|exact Hl]); intros; reflexivity).
  rewrite Hz.
  rewrite count_links, count_and_string.
  destruct (truthy copyright); simpl; lia.
Qed.

Lemma count_Detailed (sections : list FooterSection) (links : list FooterLink)
    (showLogo : bool) (logo : option FooterLogo) (copyright : option string)
    (n : Node) :
  DetailedFooterContent sections links showLogo logo copyright = Ok n ->
  count_tag "a" n
  = match sections with
    | [] => length links
    | _ => list_sum (map (fun s => length (section_links s)) sections)
    end.
Proof.
  unfold DetailedFooterContent.
  destruct (logoBlock showLogo logo "md" _ _) as [l|] eqn:Hl;
    simpl; [|discriminate].
  intros H. injection H as <-. cbn [count_tag map list_sum].
  assert (Hz : count_tag "a" l = 0)
    by ((eapply count_logoBlock; [|exact Hl]); intros; reflexivity).
  rewrite Hz.
  rewrite count_and_bool, count_and_string, map_map.
  rewrite (map_ext _ (fun s => length (section_links s)) count_sectionBlock).
  cbn [count_tag map list_sum]. rewrite count_links.
  destruct sections as [|s sections]; simpl.
  - case_bool_decide; destruct (truthy copyright); simpl; lia.
  - destruct (truthy copyright); simpl; lia.
Qed.

Lemma whenVariant_fails_iff (variant name : string) (content : result Node) :
  is_ok (whenVariant variant name content) = false
  <-> variant = name /\ is_ok content = false.
Proof.
  unfold whenVariant. case_bool_decide; simpl; intuition discriminate.
Qed.

Lemma sm_known : ~ unknown_key LogoUi.sizeConfig "sm".
Proof. discriminate. Qed.

Lemma md_known : ~ unknown_key LogoUi.sizeConfig "md".
Proof. discriminate. Qed.

(** X14. A rendered footer holds one link per entry of [links] in its
    simple and minimal variants. The detailed variant holds the links of
    its sections and drops [links] as soon as there is one section. Any
    other variant renders no link at all. *)
Theorem Footer_link_count (p : FooterProps) (tree : Node) :
  Footer p = Ok tree ->
  let variant := default "simple" (variant p) in
  let links := default [] (links p) in
  let sections := default [] (sections p) in
  count_tag "a" tree
  = if bool_decide (variant = "simple") || bool_decide (variant = "minimal")
    then length links
    else if bool_decide (variant = "detailed")
         then match sections with
              | [] => length links
              | _ => list_sum (map (fun s => length (section_links s)) sections)
              end
         else 0.
Proof.
  unfold Footer. cbv zeta.
  set (variant := default "simple" (FooterUi.variant p)).
  set (links := default [] (FooterUi.links p)).
  set (sections := default [] (FooterUi.sections p)).
  unfold whenVariant.
  destruct (bool_decide (variant = "simple")) eqn:Hs.
  - apply bool_decide_eq_true in Hs. rewrite Hs. simpl.
    destruct (SimpleFooterContent _ _ _ _) as [n|] eqn:Hn; simpl; [|discriminate].
    intros H. injection H as <-. cbn [count_tag map list_sum].
    rewrite (count_Simple _ _ _ _ n Hn). simpl. lia.
  - apply bool_decide_eq_false in Hs. simpl.
    destruct (bool_decide (variant = "detailed")) eqn:Hd.
    + apply bool_decide_eq_true in Hd. rewrite Hd. simpl.
      destruct (DetailedFooterContent _ _ _ _ _) as [n|] eqn:Hn; simpl;
        [|discriminate].
      intros H. injection H as <-. cbn [count_tag map list_sum].
      rewrite (count_Detailed _ _ _ _ _ n Hn). simpl. lia.
    + apply bool_decide_eq_false in Hd. simpl.
      destruct (bool_decide (variant = "minimal")) eqn:Hm.
      * destruct (MinimalFooterContent _ _ _ _) as [n|] eqn:Hn; simpl;
          [|discriminate].
        intros H. injection H as <-. cbn [count_tag map list_sum].
        rewrite (count_Minimal _ _ _ _ n Hn). simpl. lia.
      * simpl. intros H. injection H as <-. reflexivity.
Qed.

Lemma Footer_link_count_witness :
  exists tree : Node,
    CompanyFooter
      (Some [ {| title := Some "Product";
                 section_links :=
                   [ {| label := "Pricing"; href := "/pricing";
                        icon := GUndefined; external := None;
                        ariaHidden := None |} ] |} ])
      None None = Ok tree
    /\ count_tag "a" tree = 1.
Proof.
  unfold CompanyFooter.
  match goal with |- context [Footer ?q] => set (p := q) end.
  destruct (Footer p) as [tree|err] eqn:He; [|vm_compute in He; discriminate He].
  exists tree. split; [reflexivity|].
  rewrite (Footer_link_count p tree He). reflexivity.
Defined.

(** X15. [Footer] throws exactly when its logo is shown, its variant is
    one of the three that have a content, and the logo size is a non-empty
    string other than "custom" that the logo does not know. On any other
    variant the logo is never rendered. *)
Theorem Footer_throws_iff (p : FooterProps) :
  is_ok (Footer p) = false
  <-> default false (showLogo p) = true
      /\ default "simple" (variant p) ∈ footerContents
      /\ bad_logo_size (logo p ≫= logo_size).
Proof.
  assert (Hsize : Some (default {| logo_src := None; logo_alt := None;
                                   logo_size := None |} (logo p)) ≫= logo_size
                  = logo p ≫= logo_size)
    by (destruct (logo p); reflexivity).
  assert (Hs : forall links copyright,
             is_ok (SimpleFooterContent links (default false (showLogo p))
                      (Some (default {| logo_src := None; logo_alt := None;
                                        logo_size := None |} (logo p)))
                      copyright) = false
             <-> default false (showLogo p) = true
                 /\ bad_logo_size (logo p ≫= logo_size)).
  { intros links copyright. rewrite <- Hsize.
    rewrite <- (logoBlock_fails_iff _ _ "sm" LogoUi.Absent
                  (fun l => NEl "div"
                              [ ("className", AString "w-full flex justify-center mb-4") ]
                              [ l ]) sm_known).
    unfold SimpleFooterContent. destruct (logoBlock _ _ _ _ _); reflexivity. }
  assert (Hd : forall sections links copyright,
             is_ok (DetailedFooterContent sections links
                      (default false (showLogo p))
                      (Some (default {| logo_src := None; logo_alt := None;
                                        logo_size := None |} (logo p)))
                      copyright) = false
             <-> default false (showLogo p) = true
                 /\ bad_logo_size (logo p ≫= logo_size)).
  { intros sections links copyright. rewrite <- Hsize.
    rewrite <- (logoBlock_fails_iff _ _ "md" (LogoUi.Given (Some "mb-4"))
                  (fun l => NEl "div" [ ("className", AString "md:col-span-1") ]
                              [ l ]) md_known).
    unfold DetailedFooterContent. destruct (logoBlock _ _ _ _ _); reflexivity. }
  assert (Hm : forall links copyright,
             is_ok (MinimalFooterContent links (default false (showLogo p))
                      (Some (default {| logo_src := None; logo_alt := None;
                                        logo_size := None |} (logo p)))
                      copyright) = false
             <-> default false (showLogo p) = true
                 /\ bad_logo_size (logo p ≫= logo_size)).
  { intros links copyright. rewrite <- Hsize.
    rewrite <- (logoBlock_fails_iff _ _ "sm" LogoUi.Absent (fun l => l) sm_known).
    unfold MinimalFooterContent. destruct (logoBlock _ _ _ _ _); reflexivity. }
  unfold Footer, footerContents. cbv zeta.
  set (variant := default "simple" (FooterUi.variant p)).
  rewrite !elem_of_cons, elem_of_nil.
  pose proof (whenVariant_fails_iff variant "simple"
                (SimpleFooterContent (default [] (links p))
                   (default false (showLogo p))
                   (Some (default {| logo_src := None; logo_alt := None;
                                     logo_size := None |} (logo p)))
                   (copyright p))) as Ws.
  pose proof (whenVariant_fails_iff variant "detailed"
                (DetailedFooterContent (default [] (sections p))
                   (default [] (links p))
                   (default false (showLogo p))
                   (Some (default {| logo_src := None; logo_alt := None;
                                     logo_size := None |} (logo p)))
                   (copyright p))) as Wd.
  pose proof (whenVariant_fails_iff variant "minimal"
                (MinimalFooterContent (default [] (links p))
                   (default false (showLogo p))
                   (Some (default {| logo_src := None; logo_alt := None;
                                     logo_size := None |} (logo p)))
                   (copyright p))) as Wm.
  rewrite Hs in Ws. rewrite Hd in Wd. rewrite Hm in Wm.
  destruct (whenVariant variant "simple" _) as [a|]; simpl.
  - destruct (whenVariant variant "detailed" _) as [b|]; simpl.
    + destruct (whenVariant variant "minimal" _) as [c|]; simpl.
      * split; [discriminate|]. intros (Hl & [Hv|[Hv|[Hv|[]]]] & Hb).
        -- apply Ws; auto.
        -- apply Wd; auto.
        -- apply Wm; auto.
      * destruct (proj1 Wm eq_refl) as (Hv & Hl & Hb). tauto.
    + destruct (proj1 Wd eq_refl) as (Hv & Hl & Hb). tauto.
  - destruct (proj1 Ws eq_refl) as (Hv & Hl & Hb). tauto.
Qed.

Lemma Footer_throws_iff_witness :
  is_ok (Footer {| links := None; sections := None; showLogo := Some true;
                   logo := Some {| logo_src := None; logo_alt := None;
                                   logo_size := Some "huge" |};
                   copyright := None; children := GUndefined;
                   variant := Some "banner"; className := None;
                   gridPosition := None |}) = true.
Proof.
  apply not_false_is_true. intros H.
  apply (proj1 (Footer_throws_iff _)) in H. destruct H as (_ & Hv & _).
  simpl in Hv. unfold footerContents in Hv.
  rewrite !elem_of_cons, elem_of_nil in Hv.
  destruct Hv as [Hv|[Hv|[Hv|[]]]]; discriminate Hv.
Defined.

End FooterFacts.

(** ** The page shell *)

Section PageFacts.
Import React Layout LayoutRender.

Lemma PageLayout_ok_iff (p : PageLayoutProps) :
  is_ok (PageLayout p) = true
  <-> ~ unknown_key layoutVariants (default "default" (variant p)).
Proof.
  unfold PageLayout, unknown_key.
  destruct (get layoutVariants (default "default" (variant p)));
    simpl; split; congruence.
Qed.

Lemma declared_layout_known (v : string) :
  v ∈ declaredLayouts -> ~ unknown_key layoutVariants v.
Proof.
  unfold declaredLayouts. rewrite !elem_of_cons, elem_of_nil.
  intros [->|[->|[->|[->|[->|[->|[]]]]]]]; discriminate.
Qed.

(** X16. [PageLayout] resolves its classes exactly when reading the
    variant in [layoutVariants] does not yield [undefined]; in particular
    it resolves on each of the six declared variants and when the variant
    is left out, whatever the other props are. *)
Theorem PageLayout_resolves_iff (p : PageLayoutProps) :
  (is_ok (PageLayout p) = true
   <-> ~ unknown_key layoutVariants (default "default" (variant p)))
  /\ (default "default" (variant p) ∈ declaredLayouts ->
      is_ok (PageLayout p) = true).
Proof.
  split; [apply PageLayout_ok_iff|].
  intros Hv. apply PageLayout_ok_iff, declared_layout_known, Hv.
Qed.

Lemma PageLayout_resolves_iff_witness :
  is_ok (PageLayout (LayoutSamples.with_maxWidth
                       (LayoutSamples.page (Some "docs")) (Some "huge"))) = true.
Proof.
  apply (proj2 (PageLayout_resolves_iff _)). simpl. unfold declaredLayouts.
  apply (bool_decide_unpack _). vm_compute. exact I.
Defined.





End PageFacts.

(** ** More on [Button] and its classes *)

Section ButtonMoreFacts.
Import Cva ButtonStyles React Btn.
Local Open Scope list_scope.

Lemma content_of_Button (p : ButtonProps) : content_of (Button p) = content p.
Proof.
  unfold Button. destruct (href p) as [h|]; [destruct (truthy_str h)|];
    reflexivity.
Qed.

(** X19. A [Button] that is not loading shows its icon once: before the
    label when [iconPosition] is "left" or left out, after it when "right",
    and not at all on any other position. *)
Theorem Button_icon_placement (p : ButtonProps) :
  default false (loading p) = false ->
  truthy_node (icon p) = true ->
  visible (icon p) = [ icon p ] ->
  visible (content_of (Button p))
  = if bool_decide (default "left" (iconPosition p) = "left")
    then [ icon p; RSpan (children p) ]
    else if bool_decide (default "left" (iconPosition p) = "right")
         then [ RSpan (children p); icon p ]
         else [ RSpan (children p) ].
Proof.
  intros Hl Ht Hv. rewrite content_of_Button. unfold content, iconSlot.
  rewrite Hl, Ht. cbn [visible map concat and_node andb].
  assert (Hs : match loadingText p with
               | Some t => if false then RText t else children p
               | None => children p
               end = children p) by (destruct (loadingText p); reflexivity).
  rewrite Hs.
  case_bool_decide as Hleft.
  - rewrite Hleft. simpl. rewrite Hv. reflexivity.
  - case_bool_decide as Hright; simpl; rewrite ?Hv; reflexivity.
Qed.

Lemma Button_icon_placement_witness :
  visible (content_of
             (Button {| className := None; variant := PUndefined;
                        size := PUndefined; width := PUndefined;
                        href := None; target := None; rel := None;
                        icon := RSpinner; iconPosition := Some "top";
                        loading := None; loadingText := None;
                        children := RText "Save"; disabled := None;
                        onClick := None; ref := None |}))
  = [ RSpan (RText "Save") ].
Proof.
  exact (Button_icon_placement
           {| className := None; variant := PUndefined;
              size := PUndefined; width := PUndefined;
              href := None; target := None; rel := None;
              icon := RSpinner; iconPosition := Some "top";
              loading := None; loadingText := None;
              children := RText "Save"; disabled := None;
              onClick := None; ref := None |}
           eq_refl eq_refl eq_refl).
Defined.

Lemma string_append_assoc (s1 s2 s3 : string) :
  (s1 +:+ s2) +:+ s3 = s1 +:+ (s2 +:+ s3).
Proof.
  induction s1 as [|c s1 IH]; [reflexivity|].
  rewrite !append_cons, IH. reflexivity.
Qed.

Lemma push_empty (x : string) : push "" x = x.
Proof. reflexivity. Qed.

Lemma push_truthy (str x : string) :
  truthy_str str = true -> push str x = str +:+ " " +:+ x.
Proof. unfold push. intros ->. reflexivity. Qed.

Lemma truthy_push (str x : string) :
  truthy_str str = true -> truthy_str (str +:+ " " +:+ x) = true.
Proof. destruct str; [discriminate | reflexivity]. Qed.

Lemma truthy_push_any (str x : string) :
  truthy_str str = true -> truthy_str (push str x) = true.
Proof. intros H. rewrite push_truthy by assumption. apply truthy_push, H. Qed.

Lemma base_truthy : truthy_str (base buttonConfig) = true.
Proof. reflexivity. Qed.

Lemma get_own {A} (table : gmap string A) (k : string) (a : A) :
  table !! k = Some a -> get table k = Own a.
Proof. unfold get. intros ->. reflexivity. Qed.

Lemma fragments_not_empty :
  map_Forall (fun _ f => f <> "") variantTable
  /\ map_Forall (fun _ f => f <> "") sizeTable
  /\ map_Forall (fun _ f => f <> "") widthTable.
Proof.
  repeat split; apply (bool_decide_unpack _); vm_compute; exact I.
Qed.

(** X20. For known values of the three dimensions, the class string of
    [buttonVariants] is the base classes, then the variant, size and width
    fragments in that order, then the caller's className if it is not
    empty, joined by single spaces. *)
Theorem buttonVariants_composition
    (v s w fv fs fw : string) (c : option string) :
  v <> "" -> s <> "" -> w <> "" ->
  variantTable !! v = Some fv ->
  sizeTable !! s = Some fs ->
  widthTable !! w = Some fw ->
  buttonVariants (PString v) (PString s) (PString w) c
  = String.concat " "
      ([ base buttonConfig; fv; fs; fw ]
       ++ (if truthy c then [ default "" c ] else [])).
Proof.
  intros Hv Hs Hw Hfv Hfs Hfw.
  destruct fragments_not_empty as (Nv & Ns & Nw).
  pose proof (Nv v fv Hfv) as Hnv. pose proof (Ns s fs Hfs) as Hns.
  pose proof (Nw w fw Hfw) as Hnw.
  rewrite buttonVariants_unfold, !dimensionClass_named by assumption.
  rewrite (get_own _ _ _ Hfv), (get_own _ _ _ Hfs), (get_own _ _ _ Hfw).
  destruct fv as [|a1 fv]; [congruence|].
  destruct fs as [|a2 fs]; [congruence|].
  destruct fw as [|a3 fw]; [congruence|].
  destruct c as [[|a4 c]|]; unfold clsx;
    cbn [fold_left toVal truthy_cv truthy_str of_lookup of_option];
    rewrite base_truthy; cbn [truthy_str];
    rewrite ?push_empty;
    repeat (rewrite push_truthy
              by (repeat (apply truthy_push_any); reflexivity));
    cbn [truthy_str];
    repeat (rewrite truthy_push by reflexivity);
    repeat (rewrite push_truthy
              by (repeat (apply truthy_push); reflexivity));
    rewrite ?string_append_assoc; reflexivity.
Qed.

Lemma buttonVariants_composition_witness :
  buttonVariants (PString "link") (PString "sm") (PString "full") (Some "mt-2")
  = "inline-flex items-center justify-center gap-2 rounded-full border border-solid transition-colors font-medium focus-visible:outline-none focus-visible:ring-2 focus-visible:ring-ring focus-visible:ring-offset-2 disabled:pointer-events-none disabled:opacity-50 border-transparent underline-offset-4 hover:underline text-primary h-9 px-3 text-sm w-full mt-2".
Proof.
  exact (buttonVariants_composition "link" "sm" "full" _ _ _ (Some "mt-2")
           ltac:(discriminate) ltac:(discriminate) ltac:(discriminate)
           eq_refl eq_refl eq_refl).
Defined.

(** X21. The defaults [ActionButton] fills in for variant, size and
    width are the ones [buttonVariants] declares: the classes of the
    rendered button are those it would get if the three settings were
    handed on as they came. *)
Theorem ActionButton_defaults_agree
    (c : Action.ActionButtonConfig) (h : string) (ref : option Handle) :
  classes (Action.buttonProps c h ref)
  = cn [ CVString (buttonVariants (prop_of (Action.variant c))
                                  (prop_of (Action.size c))
                                  (prop_of (Action.width c))
                                  (Action.className c)) ].
Proof.
  unfold classes, Action.buttonProps. simpl. do 2 f_equal.
  rewrite !buttonVariants_unfold.
  destruct (Action.variant c), (Action.size c), (Action.width c); simpl;
    rewrite ?dimensionClass_omitted;
    rewrite ?(dimensionClass_named _ _ "primary") by discriminate;
    rewrite ?(dimensionClass_named _ _ "default") by discriminate;
    rewrite ?(dimensionClass_named _ _ "auto") by discriminate;
    reflexivity.
Qed.

End ButtonMoreFacts.
